(** * Task manager: the entity model, the store and its queries

    A shallow embedding of [task_manager.py]: the [Task] class, the
    [TaskManager] class (CRUD, filtering, the display order of
    [view_tasks], saving and loading), and the properties of the
    specification stated over them.

    Conventions of the embedding.
    - A Python [str] is a Rocq [string] read as ASCII text (code points
      0..127), the alphabet on which [str.strip], [str.lower] and
      [str.title] neither leave the alphabet nor change the length.  On
      the bytes 128..255 the character functions below act as the
      identity and class the byte as neither cased nor white space;
      [str.isdigit] alone is given on all of 0..255, since it accepts
      there characters that [int] rejects.
    - A [datetime.date] is its proleptic Gregorian ordinal, the integer
      [date.toordinal()] returns; [date] comparison is comparison of
      ordinals and [date + timedelta(days=k)] is addition with the range
      check of the library.  The library is the one of CPython 3.11 on
      Linux: [strftime] leaves the directive [%Y] to the C library,
      which does not pad the year, and [int] and [json] convert
      integers of at most 4300 digits.
    - A method that mutates [self] is a function from the state to an
      outcome and the state it leaves, also when it raises. *)

From stdpp Require Import base option list strings gmap sorting.
From Stdlib Require Import ZArith Lia Ascii String.

#[local] Open Scope string_scope.
#[local] Open Scope Z_scope.

(** ** Python strings *)

Module PyStr.

Definition code (c : ascii) : N := N_of_ascii c.

Definition is_upper (c : ascii) : bool := ((65 <=? code c) && (code c <=? 90))%N.
Definition is_lower (c : ascii) : bool := ((97 <=? code c) && (code c <=? 122))%N.

(** [_PyUnicode_IsCased] on ASCII: the letters. *)
Definition is_cased (c : ascii) : bool := is_upper c || is_lower c.

Definition is_digit (c : ascii) : bool := ((48 <=? code c) && (code c <=? 57))%N.

(** [str.isspace] on ASCII: TAB, LF, VT, FF, CR, FS, GS, RS, US and
    the space. *)
Definition is_space (c : ascii) : bool :=
  (((9 <=? code c) && (code c <=? 13)) || ((28 <=? code c) && (code c <=? 32)))%N.

Definition to_lower (c : ascii) : ascii :=
  if is_upper c then ascii_of_N (code c + 32) else c.

Definition to_upper (c : ascii) : ascii :=
  if is_lower c then ascii_of_N (code c - 32) else c.

(** [str.lower()] *)
Fixpoint lower (s : string) : string :=
  match s with
  | EmptyString => EmptyString
  | String c s' => String (to_lower c) (lower s')
  end.

(** [str.title()]: a character that follows a cased character is
    lowercased, any other character is titlecased (uppercased, on
    ASCII). *)
Fixpoint title_from (previous_is_cased : bool) (s : string) : string :=
  match s with
  | EmptyString => EmptyString
  | String c s' =>
      String (if previous_is_cased then to_lower c else to_upper c)
             (title_from (is_cased c) s')
  end.

Definition title (s : string) : string := title_from false s.

Fixpoint lstrip (s : string) : string :=
  match s with
  | EmptyString => EmptyString
  | String c s' => if is_space c then lstrip s' else s
  end.

(** Drops the trailing white space: a character is kept when it is not
    white space or when something is kept after it. *)
Fixpoint rstrip (s : string) : string :=
  match s with
  | EmptyString => EmptyString
  | String c s' =>
      match rstrip s' with
      | EmptyString => if is_space c then EmptyString else String c EmptyString
      | r => String c r
      end
  end.

(** [str.strip()] *)
Definition strip (s : string) : string := rstrip (lstrip s).

(** Truth value of a string: [not s] holds of the empty string. *)
Definition truthy (s : string) : bool :=
  match s with EmptyString => false | _ => true end.

End PyStr.

(** ** Python values, exceptions and outcomes *)

(** The values a serialized task holds: integers and strings. *)
Inductive pyval : Type :=
  | PInt (n : Z)
  | PStr (s : string).

#[export] Instance pyval_eq_dec : EqDecision pyval.
Proof. solve_decision. Defined.

Inductive exn : Type :=
  | ValueError
  | KeyError
  | TypeError
  | AttributeError
  | OverflowError.

#[export] Instance exn_eq_dec : EqDecision exn.
Proof. solve_decision. Defined.

(** The outcome of a call: a returned value or a raised exception. *)
Inductive res (A : Type) : Type :=
  | Ok (a : A)
  | Raise (e : exn).
Arguments Ok {A} a.
Arguments Raise {A} e.

Definition res_bind {A B : Type} (r : res A) (k : A -> res B) : res B :=
  match r with
  | Ok a => k a
  | Raise e => Raise e
  end.

Fixpoint res_mapM {A B : Type} (f : A -> res B) (l : list A) : res (list B) :=
  match l with
  | [] => Ok []
  | x :: l' =>
      res_bind (f x) (fun y => res_bind (res_mapM f l') (fun ys => Ok (y :: ys)))
  end.

(** ** Calendar dates ([datetime.date]) *)

Module PyDate.

(** A date is its proleptic Gregorian ordinal: 1 is 0001-01-01. *)
Definition date : Type := Z.

Definition MINYEAR : Z := 1.
Definition MAXYEAR : Z := 9999.
(** [date(9999, 12, 31).toordinal()] *)
Definition MAXORDINAL : Z := 3652059.

(** The ordinals of the dates the library can represent. *)
Definition date_ok (d : date) : Prop := 1 <= d <= MAXORDINAL.

Definition DAYS_IN_MONTH : list Z :=
  [-1; 31; 28; 31; 30; 31; 30; 31; 31; 30; 31; 30; 31].
Definition DAYS_BEFORE_MONTH : list Z :=
  [-1; 0; 31; 59; 90; 120; 151; 181; 212; 243; 273; 304; 334].

Definition DI400Y : Z := 146097.
Definition DI100Y : Z := 36524.
Definition DI4Y : Z := 1461.

Definition is_leap (year : Z) : bool :=
  (year mod 4 =? 0) && (negb (year mod 100 =? 0) || (year mod 400 =? 0)).

Definition days_before_year (year : Z) : Z :=
  let y := year - 1 in
  y * 365 + y / 4 - y / 100 + y / 400.

Definition days_in_month (year month : Z) : Z :=
  if (month =? 2) && is_leap year then 29
  else nth (Z.to_nat month) DAYS_IN_MONTH 0.

Definition days_before_month (year month : Z) : Z :=
  nth (Z.to_nat month) DAYS_BEFORE_MONTH 0
  + (if (2 <? month) && is_leap year then 1 else 0).

(** [_ymd2ord]: the ordinal of a year, a month and a day. *)
Definition ymd2ord (year month day : Z) : Z :=
  days_before_year year + days_before_month year month + day.

(** [_ord2ymd]: the year, month and day of an ordinal. *)
Definition ord2ymd (n : Z) : Z * Z * Z :=
  let n := n - 1 in
  let n400 := n / DI400Y in
  let n := n mod DI400Y in
  let year := n400 * 400 + 1 in
  let n100 := n / DI100Y in
  let n := n mod DI100Y in
  let n4 := n / DI4Y in
  let n := n mod DI4Y in
  let n1 := n / 365 in
  let n := n mod 365 in
  let year := year + n100 * 100 + n4 * 4 + n1 in
  if (n1 =? 4) || (n100 =? 4) then (year - 1, 12, 31)
  else
    let leapyear := (n1 =? 3) && (negb (n4 =? 24) || (n100 =? 3)) in
    let month := Z.shiftr (n + 50) 5 in
    let preceding :=
      nth (Z.to_nat month) DAYS_BEFORE_MONTH 0
      + (if (2 <? month) && leapyear then 1 else 0) in
    if n <? preceding then
      let month := month - 1 in
      let preceding :=
        preceding - (nth (Z.to_nat month) DAYS_IN_MONTH 0
                     + (if (month =? 2) && leapyear then 1 else 0)) in
      (year, month, n - preceding + 1)
    else (year, month, n - preceding + 1).

(** The field checks of the [date] constructor, then [_ymd2ord]. *)
Definition make_date (year month day : Z) : res date :=
  if negb ((MINYEAR <=? year) && (year <=? MAXYEAR)) then Raise ValueError
  else if negb ((1 <=? month) && (month <=? 12)) then Raise ValueError
  else if negb ((1 <=? day) && (day <=? days_in_month year month)) then Raise ValueError
  else Ok (ymd2ord year month day).

(** [d + timedelta(days=k)] *)
Definition add_days (d : date) (k : Z) : res date :=
  let o := d + k in
  if (0 <? o) && (o <=? MAXORDINAL) then Ok o else Raise OverflowError.

Definition digit_char (k : Z) : ascii := ascii_of_N (48 + Z.to_N k).

Definition digit_val (c : ascii) : Z := Z.of_N (PyStr.code c) - 48.

Definition in_range (lo hi c : ascii) : bool :=
  ((PyStr.code lo <=? PyStr.code c) && (PyStr.code c <=? PyStr.code hi))%N.

(** The directive [%Y] of [strftime]: the decimal digits of the year,
    not padded (0999 is written 999). *)
Definition year_text (y : Z) (rest : string) : string :=
  if y <? 10 then String (digit_char y) rest
  else if y <? 100 then
    String (digit_char (y / 10)) (String (digit_char (y mod 10)) rest)
  else if y <? 1000 then
    String (digit_char (y / 100)) (String (digit_char (y / 10 mod 10))
    (String (digit_char (y mod 10)) rest))
  else
    String (digit_char (y / 1000)) (String (digit_char (y / 100 mod 10))
    (String (digit_char (y / 10 mod 10)) (String (digit_char (y mod 10)) rest))).

(** [d.strftime("%Y-%m-%d")]: the year, then the month and the day on
    two digits each. *)
Definition strftime (d : date) : string :=
  let '(y, m, dd) := ord2ymd d in
  year_text y
    (String "-" (String (digit_char (m / 10)) (String (digit_char (m mod 10))
    (String "-" (String (digit_char (dd / 10)) (String (digit_char (dd mod 10))
    EmptyString)))))).

(** The directive [%Y]: exactly four digits. *)
Definition parse_year (s : string) : option (Z * string) :=
  match s with
  | String a (String b (String c (String d rest))) =>
      if PyStr.is_digit a && PyStr.is_digit b && PyStr.is_digit c && PyStr.is_digit d
      then Some (digit_val a * 1000 + digit_val b * 100 + digit_val c * 10 + digit_val d, rest)
      else None
  | _ => None
  end.

(** The directive [%m]: the alternatives [1[0-2]], [0[1-9]], [[1-9]],
    tried in this order.  What follows is a hyphen, which no later
    alternative can reach once an earlier one has matched, so the
    first match is the only one. *)
Definition parse_month (s : string) : option (Z * string) :=
  match s with
  | String a rest =>
      match rest with
      | String b rest' =>
          if Ascii.eqb a "1" && in_range "0" "2" b then Some (10 + digit_val b, rest')
          else if Ascii.eqb a "0" && in_range "1" "9" b then Some (digit_val b, rest')
          else if in_range "1" "9" a then Some (digit_val a, rest)
          else None
      | EmptyString => if in_range "1" "9" a then Some (digit_val a, rest) else None
      end
  | EmptyString => None
  end.

(** The directive [%d]: the alternatives [3[0-1]], [[1-2]\d],
    [0[1-9]], [[1-9]] and a space before [[1-9]], in this order. *)
Definition parse_day (s : string) : option (Z * string) :=
  match s with
  | String a rest =>
      match rest with
      | String b rest' =>
          if Ascii.eqb a "3" && in_range "0" "1" b then Some (30 + digit_val b, rest')
          else if in_range "1" "2" a && PyStr.is_digit b
               then Some (digit_val a * 10 + digit_val b, rest')
          else if Ascii.eqb a "0" && in_range "1" "9" b then Some (digit_val b, rest')
          else if in_range "1" "9" a then Some (digit_val a, rest)
          else if Ascii.eqb a " " && in_range "1" "9" b then Some (digit_val b, rest')
          else None
      | EmptyString => if in_range "1" "9" a then Some (digit_val a, rest) else None
      end
  | EmptyString => None
  end.

Definition expect_hyphen (s : string) : option string :=
  match s with
  | String c rest => if Ascii.eqb c "-" then Some rest else None
  | EmptyString => None
  end.

(** [datetime.strptime(s, "%Y-%m-%d").date()]: the text is matched
    against the pattern of the format, nothing may remain after the
    match, and the fields must form a date. *)
Definition strptime (s : string) : res date :=
  match parse_year s with
  | None => Raise ValueError
  | Some (y, s1) =>
      match expect_hyphen s1 with
      | None => Raise ValueError
      | Some s2 =>
          match parse_month s2 with
          | None => Raise ValueError
          | Some (m, s3) =>
              match expect_hyphen s3 with
              | None => Raise ValueError
              | Some s4 =>
                  match parse_day s4 with
                  | None => Raise ValueError
                  | Some (dd, s5) =>
                      match s5 with
                      | EmptyString => make_date y m dd
                      | String _ _ => Raise ValueError
                      end
                  end
              end
          end
      end
  end.

End PyDate.

(** ** The conversion [int(x)] *)

Module PyInt.

(** The digits of a decimal literal: underscores are allowed, one at
    a time, between two digits. *)
Fixpoint digits (acc : Z) (after_digit : bool) (s : string) : option Z :=
  match s with
  | EmptyString => if after_digit then Some acc else None
  | String c s' =>
      if PyStr.is_digit c then digits (acc * 10 + PyDate.digit_val c) true s'
      else if Ascii.eqb c "_" && after_digit then digits acc false s'
      else None
  end.

Fixpoint count_digits (s : string) : Z :=
  match s with
  | EmptyString => 0
  | String c s' => (if PyStr.is_digit c then 1 else 0) + count_digits s'
  end.

(** [sys.get_int_max_str_digits()], by default *)
Definition MAX_STR_DIGITS : Z := 4300.

(** The white space [int] skips in an ASCII text: TAB, LF, VT, FF, CR
    and the space. *)
Definition is_c_space (c : ascii) : bool :=
  (((9 <=? PyStr.code c) && (PyStr.code c <=? 13)) || (PyStr.code c =? 32))%N.

Fixpoint skip_leading (s : string) : string :=
  match s with
  | EmptyString => EmptyString
  | String c s' => if is_c_space c then skip_leading s' else s
  end.

Fixpoint skip_trailing (s : string) : string :=
  match s with
  | EmptyString => EmptyString
  | String c s' =>
      match skip_trailing s' with
      | EmptyString => if is_c_space c then EmptyString else String c EmptyString
      | r => String c r
      end
  end.

(** [int(s)] for a string: white space around an optional sign and
    the digits. *)
Definition of_str (s : string) : res Z :=
  let s := skip_trailing (skip_leading s) in
  let '(negative, body) :=
    match s with
    | String c s' =>
        if Ascii.eqb c "-" then (true, s')
        else if Ascii.eqb c "+" then (false, s')
        else (false, s)
    | EmptyString => (false, s)
    end in
  match digits 0 false body with
  | None => Raise ValueError
  | Some n =>
      if MAX_STR_DIGITS <? count_digits body then Raise ValueError
      else Ok (if negative then - n else n)
  end.

Definition int (v : pyval) : res Z :=
  match v with
  | PInt n => Ok n
  | PStr s => of_str s
  end.

End PyInt.

(** ** The class [Task] *)

Module Task.

(** [priority] and [status] hold whatever value the caller or the
    loaded mapping gives: [from_dict] stores them unchecked. *)
Record t : Type := mk {
  id : Z;
  title : string;
  priority : pyval;
  due_date : PyDate.date;
  status : pyval
}.

#[export] Instance eq_dec : EqDecision t.
Proof. solve_decision. Defined.

Definition VALID_PRIORITIES : list string := ["Low"; "Medium"; "High"].
Definition VALID_STATUSES : list string := ["Pending"; "Completed"].

(** The default of the parameter [status] of [__init__]. *)
Definition DEFAULT_STATUS : pyval := PStr "Pending".

(** [Task.__init__]: the title is stripped, nothing is validated. *)
Definition init (id : Z) (title : string) (priority : pyval)
    (due_date : PyDate.date) (status : pyval) : t :=
  mk id (PyStr.strip title) priority due_date status.

Definition set_title (v : string) (x : t) : t :=
  mk (id x) v (priority x) (due_date x) (status x).
Definition set_priority (v : pyval) (x : t) : t :=
  mk (id x) (title x) v (due_date x) (status x).
Definition set_due_date (v : PyDate.date) (x : t) : t :=
  mk (id x) (title x) (priority x) v (status x).
Definition set_status (v : pyval) (x : t) : t :=
  mk (id x) (title x) (priority x) (due_date x) v.

(** [Task.to_dict] *)
Definition to_dict (x : t) : gmap string pyval :=
  <["id" := PInt (id x)]>
  (<["title" := PStr (title x)]>
  (<["priority" := priority x]>
  (<["due_date" := PStr (PyDate.strftime (due_date x))]>
  (<["status" := status x]> ∅)))).

(** [data[key]] *)
Definition getitem (data : gmap string pyval) (key : string) : res pyval :=
  match data !! key with
  | Some v => Ok v
  | None => Raise KeyError
  end.

(** [Task.from_dict].  The arguments of the constructor are evaluated
    in the order of the source, after the date; a title that is not a
    string fails in [__init__], at [title.strip()]. *)
Definition from_dict (data : gmap string pyval) : res t :=
  res_bind (getitem data "due_date") (fun raw_date =>
  res_bind (match raw_date with
            | PStr s => PyDate.strptime s
            | PInt _ => Raise TypeError
            end) (fun due_date =>
  res_bind (getitem data "id") (fun raw_id =>
  res_bind (PyInt.int raw_id) (fun id =>
  res_bind (getitem data "title") (fun title =>
  res_bind (getitem data "priority") (fun priority =>
  let status := default DEFAULT_STATUS (data !! "status") in
  match title with
  | PStr title => Ok (init id title priority due_date status)
  | PInt _ => Raise AttributeError
  end)))))).

End Task.

(** ** The class [TaskManager] *)

Module TaskManager.

(** What is at a path, as [open] and [json] see it: a file whose text
    is not JSON; a file whose text is a list of mappings; something
    that cannot be opened, for reading or for writing (a directory, a
    path through a directory that does not exist); a file whose text
    is a list of mappings and that cannot be opened for writing.  A
    path that maps to nothing is a file that does not exist yet and
    can be created.  A file that is opened for writing takes the whole
    text it is given. *)
Inductive file_data : Type :=
  | Corrupt
  | Items (items : list (gmap string pyval))
  | NoAccess
  | ReadOnly (items : list (gmap string pyval)).

(** [open(path, "w")] succeeds. *)
Definition opens_for_writing (d : option file_data) : bool :=
  match d with
  | Some NoAccess | Some (ReadOnly _) => false
  | _ => true
  end.

(** The attributes of the manager and the files it reads and writes.
    A task object is known by its position in [task_list]: the list
    never holds the same object twice. *)
Record state : Type := mkState {
  task_list : list Task.t;
  filename : string;
  _next_id : Z;
  files : gmap string file_data
}.

Definition set_task_list (l : list Task.t) (s : state) : state :=
  mkState l (filename s) (_next_id s) (files s).
Definition set_next_id (n : Z) (s : state) : state :=
  mkState (task_list s) (filename s) n (files s).
Definition set_files (f : gmap string file_data) (s : state) : state :=
  mkState (task_list s) (filename s) (_next_id s) f.

(** A method: the outcome and the state it leaves. *)
Definition M (A : Type) : Type := state -> res A * state.

#[export] Instance M_ret : MRet M := fun A a s => (Ok a, s).
#[export] Instance M_bind : MBind M := fun A B k m s =>
  match m s with
  | (Ok a, s') => k a s'
  | (Raise e, s') => (Raise e, s')
  end.

Definition raise {A : Type} (e : exn) : M A := fun s => (Raise e, s).
Definition gets {A : Type} (f : state -> A) : M A := fun s => (Ok (f s), s).
Definition modify (f : state -> state) : M unit := fun s => (Ok tt, f s).

(** Assignment to an attribute of the task at position [r]. *)
Definition assign (r : nat) (f : Task.t -> Task.t) : M unit :=
  modify (fun s => set_task_list (alter f r (task_list s)) s).

(** *** Id handling *)

Definition _generate_id : M Z :=
  id_ ← gets _next_id;
  modify (fun s => set_next_id (_next_id s + 1) s);;
  mret id_.

(** [max(task.id for task in l)] of a list that is not empty *)
Definition max_id (first : Task.t) (rest : list Task.t) : Z :=
  foldl (fun m x => Z.max m (Task.id x)) (Task.id first) rest.

Definition _recompute_next_id : M unit :=
  modify (fun s =>
    match task_list s with
    | [] => set_next_id 1 s
    | first :: rest => set_next_id (max_id first rest + 1) s
    end).

(** *** File I/O *)

(** An integer [json] writes and reads: one of at most 4300 digits. *)
Definition json_int (v : pyval) : bool :=
  match v with
  | PInt n => Z.abs n <? 10 ^ PyInt.MAX_STR_DIGITS
  | PStr _ => true
  end.

Definition json_task (x : Task.t) : bool :=
  json_int (PInt (Task.id x)) && json_int (Task.priority x) && json_int (Task.status x).

Definition json_mapping (d : gmap string pyval) : bool :=
  bool_decide (map_Forall (fun _ v => json_int v = true) d).

(** The files after [save_to_file].  When the path cannot be opened
    nothing is written.  Otherwise the file is overwritten: with the
    serialized tasks, or with the part of them written before an
    integer that [json.dump] does not convert, text that is not JSON.
    The exception is caught in both cases. *)
Definition written (s : state) : gmap string file_data :=
  if opens_for_writing (files s !! filename s) then
    if forallb json_task (task_list s)
    then <[filename s := Items (Task.to_dict <$> task_list s)]> (files s)
    else <[filename s := Corrupt]> (files s)
  else files s.

(** [save_to_file] raises nothing. *)
Definition save_to_file : M unit :=
  modify (fun s => set_files (written s) s).

Definition start_empty : M unit :=
  modify (fun s => set_next_id 1 (set_task_list [] s)).

(** [load_from_file]: a missing file, a path that cannot be opened, a
    file that is not JSON, an integer [json.load] does not convert and
    a failure of [from_dict] all leave the store empty. *)
Definition load_from_file : M unit :=
  fun s =>
    match files s !! filename s with
    | None => start_empty s
    | Some NoAccess => start_empty s
    | Some Corrupt => start_empty s
    | Some (Items data) | Some (ReadOnly data) =>
        if forallb json_mapping data then
          match res_mapM Task.from_dict data with
          | Ok l => (modify (set_task_list l);; _recompute_next_id) s
          | Raise _ => start_empty s
          end
        else start_empty s
    end.

(** [TaskManager.__init__], on the files [fs] *)
Definition init (filename : string) (fs : gmap string file_data) : state :=
  snd (load_from_file (mkState [] filename 1 fs)).

(** *** CRUD *)

(** The loop of [find_task_by_id]. *)
Fixpoint find_in (l : list Task.t) (task_id : Z) : option Task.t :=
  match l with
  | [] => None
  | x :: l' => if decide (Task.id x = task_id) then Some x else find_in l' task_id
  end.

Definition find_task_by_id (task_id : Z) (s : state) : option Task.t :=
  find_in (task_list s) task_id.

(** The same loop, returning the position of the object it finds:
    the reference [update_task] and [delete_task] work on. *)
Fixpoint find_pos (l : list Task.t) (task_id : Z) : option nat :=
  match l with
  | [] => None
  | x :: l' => if decide (Task.id x = task_id) then Some O else S <$> find_pos l' task_id
  end.

Definition find_ref (task_id : Z) : M (option nat) :=
  gets (fun s => find_pos (task_list s) task_id).

Definition add_task (title priority : string) (due_date : PyDate.date) : M Task.t :=
  let priority := PyStr.title priority in
  if decide (priority ∈ Task.VALID_PRIORITIES) then
    id_ ← _generate_id;
    let new_task := Task.init id_ title (PStr priority) due_date Task.DEFAULT_STATUS in
    modify (fun s => set_task_list (task_list s ++ [new_task]) s);;
    save_to_file;;
    mret new_task
  else raise ValueError.

Definition update_task (task_id : Z) (title priority : option string)
    (due_date : option PyDate.date) (status : option string) : M bool :=
  task ← find_ref task_id;
  match task with
  | None => mret false
  | Some task =>
      match title with
      | Some title => assign task (Task.set_title (PyStr.strip title))
      | None => mret tt
      end;;
      match priority with
      | Some priority =>
          let priority := PyStr.title priority in
          if decide (priority ∈ Task.VALID_PRIORITIES)
          then assign task (Task.set_priority (PStr priority))
          else raise ValueError
      | None => mret tt
      end;;
      match due_date with
      | Some due_date => assign task (Task.set_due_date due_date)
      | None => mret tt
      end;;
      match status with
      | Some status =>
          let status := PyStr.title status in
          if decide (status ∈ Task.VALID_STATUSES)
          then assign task (Task.set_status (PStr status))
          else raise ValueError
      | None => mret tt
      end;;
      save_to_file;;
      mret true
  end.

Definition mark_complete (task_id : Z) : M bool :=
  update_task task_id None None None (Some "Completed").

(** [delete_task].  [list.remove(task)] removes the first element
    equal to [task]; tasks compare by identity, so this is the object
    found. *)
Definition delete_task (task_id : Z) : M bool :=
  task ← find_ref task_id;
  match task with
  | None => mret false
  | Some task =>
      modify (fun s => set_task_list (delete task (task_list s)) s);;
      save_to_file;;
      _recompute_next_id;;
      mret true
  end.

(** *** Filtering *)

(** [filter_tasks].  [value] is [None] when the argument is absent;
    [today] is the date [date.today()] returns.  The method reads the
    state and leaves it as it is. *)
Definition filter_tasks (by_ : string) (value : option string)
    (today : PyDate.date) (s : state) : res (list Task.t) :=
  let by_ := PyStr.lower by_ in
  if decide (by_ = "status") then
    match value with
    | None => Ok []
    | Some value =>
        if negb (PyStr.truthy value) then Ok []
        else
          let val := PyStr.title value in
          Ok (filter (fun x => Task.status x = PStr val) (task_list s))
    end
  else if decide (by_ = "due_date") then
    match value with
    | None => Ok []
    | Some value =>
        if negb (PyStr.truthy value) then Ok []
        else
          let val := PyStr.lower value in
          if decide (val = "today") then
            Ok (filter (fun x => Task.due_date x = today) (task_list s))
          else if decide (val = "week") then
            res_bind (PyDate.add_days today 7) (fun week_end =>
            Ok (filter (fun x => today <= Task.due_date x /\ Task.due_date x <= week_end)
                       (task_list s)))
          else
            match PyDate.strptime value with
            | Ok specific =>
                Ok (filter (fun x => Task.due_date x = specific) (task_list s))
            | Raise _ => Ok []
            end
    end
  else Ok [].

(** *** The display order of [view_tasks] *)

Definition prio_map : gmap string Z :=
  <["High" := 0]> (<["Medium" := 1]> (<["Low" := 2]> ∅)).

(** [prio_map.get(p, 3)]: a value that is not a string is no key of
    the table. *)
Definition prio_rank (p : pyval) : Z :=
  match p with
  | PStr p => default 3 (prio_map !! p)
  | PInt _ => 3
  end.

Definition sort_key (x : Task.t) : Z * Z * Z :=
  (Task.due_date x, prio_rank (Task.priority x), Task.id x).

(** The order [<] of tuples: lexicographic. *)
Definition key_lt (a b : Z * Z * Z) : bool :=
  let '(a1, a2, a3) := a in
  let '(b1, b2, b3) := b in
  (a1 <? b1) || ((a1 =? b1) && ((a2 <? b2) || ((a2 =? b2) && (a3 <? b3)))).

(** [sorted(l, key=sort_key)].  The sort of the language is stable
    and compares keys with [<] alone; it is modelled by the insertion
    of each task before the sorted tasks that came after it and whose
    key is not smaller. *)
Fixpoint insert_sorted (x : Task.t) (l : list Task.t) : list Task.t :=
  match l with
  | [] => [x]
  | y :: l' =>
      if key_lt (sort_key y) (sort_key x) then y :: insert_sorted x l'
      else x :: l
  end.

Fixpoint sorted (l : list Task.t) : list Task.t :=
  match l with
  | [] => []
  | x :: l' => insert_sorted x (sorted l')
  end.

(** [view_tasks]: the tasks of the rows of the table it prints, from
    the first row to the last ([tasks] is [None] when the argument is
    absent; no row is printed when there is nothing to show). *)
Definition view_tasks (tasks : option (list Task.t)) (s : state) : list Task.t :=
  let tasks_to_show := default (task_list s) tasks in
  match tasks_to_show with
  | [] => []
  | _ => sorted tasks_to_show
  end.

End TaskManager.

(** ** Notions the properties are stated with *)

Module Spec.

Import TaskManager.

(** The month and the day of the [n]-th day (from 0) of a year: the
    last part of [_ord2ymd]. *)
Definition month_day (leapyear : bool) (n : Z) : Z * Z :=
  let month := Z.shiftr (n + 50) 5 in
  let preceding :=
    nth (Z.to_nat month) PyDate.DAYS_BEFORE_MONTH 0
    + (if (2 <? month) && leapyear then 1 else 0) in
  if n <? preceding then
    let month := month - 1 in
    let preceding :=
      preceding - (nth (Z.to_nat month) PyDate.DAYS_IN_MONTH 0
                   + (if (month =? 2) && leapyear then 1 else 0)) in
    (month, n - preceding + 1)
  else (month, n - preceding + 1).

(** [month_day] gives a month, a day of that month, and the day of
    the year it started from. *)
Definition month_day_ok (leapyear : bool) (n : Z) : bool :=
  let '(m, d) := month_day leapyear n in
  (1 <=? m) && (m <=? 12) && (1 <=? d)
  && (d <=? (if (m =? 2) && leapyear then 29
             else nth (Z.to_nat m) PyDate.DAYS_IN_MONTH 0))
  && (nth (Z.to_nat m) PyDate.DAYS_BEFORE_MONTH 0
      + (if (2 <? m) && leapyear then 1 else 0) + d =? n + 1).

(** A title as [str.strip] leaves it. *)
Definition trimmed (s : string) : Prop := PyStr.strip s = s.

(** A task whose title has a character that is not white space. *)
Definition nonblank (x : Task.t) : Prop := PyStr.strip (Task.title x) <> EmptyString.

(** Two strings that differ in the case of their letters only. *)
Definition same_modulo_case (a b : string) : Prop := PyStr.lower a = PyStr.lower b.

(** What one call of a mutating method, or a change of the files from
    outside, makes of a state; a call that raises leaves a state too. *)
Inductive step : state -> state -> Prop :=
  | step_add_task title priority due_date s :
      step s (snd (add_task title priority due_date s))
  | step_update_task task_id title priority due_date status s :
      step s (snd (update_task task_id title priority due_date status s))
  | step_mark_complete task_id s :
      step s (snd (mark_complete task_id s))
  | step_delete_task task_id s :
      step s (snd (delete_task task_id s))
  | step_save_to_file s :
      step s (snd (save_to_file s))
  | step_load_from_file s :
      step s (snd (load_from_file s))
  | step_files fs s :
      step s (set_files fs s).

(** The states of a manager: those its constructor and its methods
    lead to. *)
Inductive reachable : state -> Prop :=
  | reachable_init filename fs : reachable (init filename fs)
  | reachable_step s s' : reachable s -> step s s' -> reachable s'.

Definition ids_below_next (s : state) : Prop :=
  forall x, x ∈ task_list s -> Task.id x < _next_id s.

(** [m] is the largest id of [l]. *)
Definition is_max_id (l : list Task.t) (m : Z) : Prop :=
  (exists x, x ∈ l /\ Task.id x = m) /\ forall x, x ∈ l -> Task.id x <= m.

(** [n] is the counter recomputed from [l]: one more than the largest
    id, and 1 when there is no task. *)
Definition recomputed (l : list Task.t) (n : Z) : Prop :=
  (l = [] /\ n = 1) \/ (exists m, is_max_id l m /\ n = m + 1).

(** The order of the sort keys: by date, then by rank, then by id. *)
Definition key_le (a b : Z * Z * Z) : Prop :=
  let '(a1, a2, a3) := a in
  let '(b1, b2, b3) := b in
  a1 < b1 \/ (a1 = b1 /\ (a2 < b2 \/ (a2 = b2 /\ a3 <= b3))).

Definition task_le (x y : Task.t) : Prop := key_le (sort_key x) (sort_key y).

(** The three tasks of the example of the sorted view; the example
    fixes neither titles nor statuses. *)
Definition example_A (title : string) (status : pyval) : Task.t :=
  Task.mk 1 title (PStr "High") 739252 status.
Definition example_B (title : string) (status : pyval) : Task.t :=
  Task.mk 2 title (PStr "Medium") 739252 status.
Definition example_C (title : string) (status : pyval) : Task.t :=
  Task.mk 3 title (PStr "Low") 739251 status.

(** A store that holds one task, as [add_task] leaves it. *)
Definition one_task_store : state :=
  snd (add_task "Write report" "High" 739252 (init "tasks.json" ∅)).

End Spec.

(** ** The helpers of the command line *)

Module Cli.

(** What a helper that reads the standard input comes to.  The input
    is the list of the lines still to be read; [input()] takes the
    first one and raises [EOFError] when there is none.  What the
    helpers print is left out. *)
Inductive outcome (A : Type) : Type :=
  | Got (a : A) (rest : list string)
  | Eof
  | Crash (e : exn).
Arguments Got {A} a rest.
Arguments Eof {A}.
Arguments Crash {A} e.

(** [parse_date_input]: [None] for a blank text and for a text that
    is no date. *)
Definition parse_date_input (s : string) : option PyDate.date :=
  let s := PyStr.strip s in
  if negb (PyStr.truthy s) then None
  else
    match PyDate.strptime s with
    | Ok d => Some d
    | Raise _ => None
    end.

Fixpoint input_non_empty (stdin : list string) : outcome string :=
  match stdin with
  | [] => Eof
  | line :: rest =>
      let val := PyStr.strip line in
      if PyStr.truthy val then Got val rest else input_non_empty rest
  end.

Fixpoint choose_priority (stdin : list string) : outcome string :=
  match stdin with
  | [] => Eof
  | line :: rest =>
      let p := PyStr.title (PyStr.strip line) in
      if decide (p ∈ Task.VALID_PRIORITIES) then Got p rest else choose_priority rest
  end.

Fixpoint input_date (stdin : list string) : outcome PyDate.date :=
  match stdin with
  | [] => Eof
  | line :: rest =>
      let s := PyStr.strip line in
      match parse_date_input s with
      | Some d => Got d rest
      | None => input_date rest
      end
  end.

(** [str.isdigit] for one character below 256: the ten digits and
    the superscripts two, three and one, which are digits for
    [str.isdigit] and which [int] rejects. *)
Definition is_digit_char (c : ascii) : bool :=
  PyStr.is_digit c
  || (PyStr.code c =? 178)%N || (PyStr.code c =? 179)%N || (PyStr.code c =? 185)%N.

(** [str.isdigit]: digits only, and at least one. *)
Fixpoint all_digits (s : string) : bool :=
  match s with
  | EmptyString => true
  | String c s' => is_digit_char c && all_digits s'
  end.

Definition isdigit (s : string) : bool := PyStr.truthy s && all_digits s.

Fixpoint input_int (stdin : list string) : outcome Z :=
  match stdin with
  | [] => Eof
  | line :: rest =>
      let s := PyStr.strip line in
      if isdigit s then
        match PyInt.int (PStr s) with
        | Ok n => Got n rest
        | Raise e => Crash e
        end
      else input_int rest
  end.

(** The branch "Add Task" of [run_cli]: the title, the priority and
    the due date are read, then the task is added. *)
Definition menu_add_task (stdin : list string) (s : TaskManager.state)
    : outcome Task.t * TaskManager.state :=
  match input_non_empty stdin with
  | Got title stdin1 =>
      match choose_priority stdin1 with
      | Got priority stdin2 =>
          match input_date stdin2 with
          | Got due stdin3 =>
              match TaskManager.add_task title priority due s with
              | (Ok task, s') => (Got task stdin3, s')
              | (Raise e, s') => (Crash e, s')
              end
          | Eof => (Eof, s)
          | Crash e => (Crash e, s)
          end
      | Eof => (Eof, s)
      | Crash e => (Crash e, s)
      end
  | Eof => (Eof, s)
  | Crash e => (Crash e, s)
  end.

(** The title of a row of [view_tasks]: a title of more than 40
    characters is cut to 37 and three dots. *)
Definition display_title (x : Task.t) : string :=
  if (40 <? String.length (Task.title x))%nat
  then String.append (String.substring 0 37 (Task.title x)) "..."
  else Task.title x.

End Cli.

(** ** Invariants of the store *)

Module Inv.

Import TaskManager Spec.

(** The calls of the mutating methods other than [load_from_file]. *)
Inductive own_step : state -> state -> Prop :=
  | own_add_task title priority due_date s :
      own_step s (snd (add_task title priority due_date s))
  | own_update_task task_id title priority due_date status s :
      own_step s (snd (update_task task_id title priority due_date status s))
  | own_mark_complete task_id s :
      own_step s (snd (mark_complete task_id s))
  | own_delete_task task_id s :
      own_step s (snd (delete_task task_id s))
  | own_save_to_file s :
      own_step s (snd (save_to_file s)).

Definition unique_ids (s : state) : Prop := NoDup (Task.id <$> task_list s).

Definition titles_trimmed (s : state) : Prop :=
  Forall (fun x => trimmed (Task.title x)) (task_list s).

(** A date from 1000-01-01 on (the ordinal 364878): a date whose
    year has four digits. *)
Definition four_digit_year (d : PyDate.date) : Prop :=
  364878 <= d <= PyDate.MAXORDINAL.

Definition dates_ok (s : state) : Prop :=
  Forall (fun x => four_digit_year (Task.due_date x)) (task_list s).

(** The path of the backing file can be opened for writing. *)
Definition writable (s : state) : Prop :=
  opens_for_writing (files s !! filename s) = true.

(** Every integer of the collection is one [json] converts. *)
Definition json_ok (s : state) : Prop := forallb json_task (task_list s) = true.

(** A text of ASCII characters. *)
Definition ascii_text (s : string) : Prop :=
  Forall (fun c => (PyStr.code c < 128)%N) (list_ascii_of_string s).

(** The backing file holds the collection as [save_to_file] writes it. *)
Definition saved (s : state) : Prop :=
  files s !! filename s = Some (Items (Task.to_dict <$> task_list s)).

(** What a method that has reached [save_to_file] leaves at the path
    of the backing file, from the state [s] to the state [s']: the
    collection as saved; or, when an integer is not converted, text
    that is not JSON; or, when the path cannot be opened, what was
    there. *)
Definition persisted (s s' : state) : Prop :=
  (writable s -> json_ok s' -> saved s')
  /\ (writable s -> ~ json_ok s' -> files s' !! filename s' = Some Corrupt)
  /\ (~ writable s -> files s' = files s).

(** The fields [update_task] leaves in a task, for arguments it
    accepts: a field that is given replaces the old one. *)
Definition updated (title priority : option string) (due_date : option PyDate.date)
    (status : option string) (x : Task.t) : Task.t :=
  Task.mk (Task.id x)
    (default (Task.title x) (PyStr.strip <$> title))
    (default (Task.priority x) ((fun p => PStr (PyStr.title p)) <$> priority))
    (default (Task.due_date x) due_date)
    (default (Task.status x) ((fun p => PStr (PyStr.title p)) <$> status)).

(** An optional argument that is absent or, once in title case, one
    of the values [valid]. *)
Definition accepted (valid : list string) (v : option string) : Prop :=
  forall p, v = Some p -> PyStr.title p ∈ valid.

End Inv.

(** * Properties *)

Import TaskManager Spec Inv.

(** ** Characters and strings *)

Ltac each_ascii c := destruct c as [[] [] [] [] [] [] [] []].

Lemma to_lower_idem (c : ascii) : PyStr.to_lower (PyStr.to_lower c) = PyStr.to_lower c.
Proof. each_ascii c; reflexivity. Qed.

Lemma is_cased_to_lower (c : ascii) : PyStr.is_cased (PyStr.to_lower c) = PyStr.is_cased c.
Proof. each_ascii c; reflexivity. Qed.

Lemma to_upper_to_lower (c : ascii) : PyStr.to_upper (PyStr.to_lower c) = PyStr.to_upper c.
Proof. each_ascii c; reflexivity. Qed.

Lemma lower_idem (s : string) : PyStr.lower (PyStr.lower s) = PyStr.lower s.
Proof.
  induction s as [| c s IH]; simpl; [reflexivity |].
  now rewrite to_lower_idem, IH.
Qed.

(** [title] sees its argument through [lower] only. *)
Lemma title_from_lower (b : bool) (s : string) :
  PyStr.title_from b (PyStr.lower s) = PyStr.title_from b s.
Proof.
  revert b. induction s as [| c s IH]; intros b; simpl; [reflexivity |].
  rewrite is_cased_to_lower, IH, to_lower_idem, to_upper_to_lower. reflexivity.
Qed.

Lemma title_same_modulo_case (a b : string) :
  same_modulo_case a b -> PyStr.title a = PyStr.title b.
Proof.
  unfold same_modulo_case, PyStr.title. intros H.
  rewrite <- (title_from_lower false a), H. apply title_from_lower.
Qed.

Lemma truthy_same_modulo_case (a b : string) :
  same_modulo_case a b -> PyStr.truthy a = PyStr.truthy b.
Proof. unfold same_modulo_case. destruct a, b; simpl; congruence. Qed.

Lemma rstrip_idem (s : string) : PyStr.rstrip (PyStr.rstrip s) = PyStr.rstrip s.
Proof.
  induction s as [| c s IH]; simpl; [reflexivity |].
  destruct (PyStr.rstrip s) as [| a r] eqn:E.
  - destruct (PyStr.is_space c) eqn:Ec; simpl; [reflexivity |]. now rewrite Ec.
  - change (PyStr.rstrip (String c (String a r)))
      with (match PyStr.rstrip (String a r) with
            | EmptyString =>
                if PyStr.is_space c then EmptyString else String c EmptyString
            | String _ _ as r0 => String c r0
            end).
    now rewrite IH.
Qed.

Lemma lstrip_head (s : string) :
  PyStr.lstrip s = EmptyString
  \/ exists c r, PyStr.lstrip s = String c r /\ PyStr.is_space c = false.
Proof.
  induction s as [| c s IH]; simpl; [now left |].
  destruct (PyStr.is_space c) eqn:Ec; [exact IH |]. right. eauto.
Qed.

Lemma rstrip_head (c : ascii) (r : string) :
  PyStr.is_space c = false -> exists r', PyStr.rstrip (String c r) = String c r'.
Proof.
  intros Ec. simpl. destruct (PyStr.rstrip r); [rewrite Ec |]; eauto.
Qed.

(** Stripping is idempotent: a stored title is [trimmed]. *)
Lemma strip_idem (s : string) : trimmed (PyStr.strip s).
Proof.
  unfold trimmed, PyStr.strip.
  destruct (lstrip_head s) as [E | (c & r & E & Ec)]; rewrite E.
  - reflexivity.
  - destruct (rstrip_head c r Ec) as [r' E'].
    assert (PyStr.lstrip (PyStr.rstrip (String c r)) = PyStr.rstrip (String c r)) as ->
      by (rewrite E'; simpl; now rewrite Ec).
    apply rstrip_idem.
Qed.

(** ** Dates: [_ord2ymd] inverts [_ymd2ord] *)

Lemma month_day_table :
  andb (forallb (month_day_ok false) (seqZ 0 365))
       (forallb (month_day_ok true) (seqZ 0 366)) = true.
Proof. vm_compute. reflexivity. Qed.

Lemma month_day_spec (leapyear : bool) (n : Z) :
  0 <= n < 365 + (if leapyear then 1 else 0) -> month_day_ok leapyear n = true.
Proof.
  intros Hn. pose proof month_day_table as H.
  apply andb_prop in H as [Hf Ht].
  destruct leapyear.
  - rewrite forallb_forall in Ht. apply Ht, list_elem_of_In, elem_of_seqZ. lia.
  - rewrite forallb_forall in Hf. apply Hf, list_elem_of_In, elem_of_seqZ. lia.
Qed.

(** The days before a year, in terms of the 400-, 100-, 4- and 1-year
    cycles the year is made of. *)
Lemma days_before_year_split (q c y4 y1 : Z) :
  0 <= c <= 3 -> 0 <= y4 <= 24 -> 0 <= y1 <= 3 ->
  PyDate.days_before_year (q * 400 + 1 + c * 100 + y4 * 4 + y1)
  = q * PyDate.DI400Y + c * PyDate.DI100Y + y4 * PyDate.DI4Y + y1 * 365.
Proof.
  intros Hc H4 H1.
  unfold PyDate.days_before_year, PyDate.DI400Y, PyDate.DI100Y, PyDate.DI4Y.
  cbv zeta.
  set (y := q * 400 + 1 + c * 100 + y4 * 4 + y1 - 1).
  assert (E4 : y / 4 = q * 100 + c * 25 + y4)
    by (symmetry; apply (Z.div_unique y 4 _ y1); lia).
  assert (E100 : y / 100 = q * 4 + c)
    by (symmetry; apply (Z.div_unique y 100 _ (y4 * 4 + y1)); lia).
  assert (E400 : y / 400 = q)
    by (symmetry; apply (Z.div_unique y 400 _ (c * 100 + y4 * 4 + y1)); lia).
  lia.
Qed.

(** The assertion [leapyear == _is_leap(year)] of [_ord2ymd]. *)
Lemma is_leap_split (q c y4 y1 : Z) :
  0 <= c <= 3 -> 0 <= y4 <= 24 -> 0 <= y1 <= 3 ->
  PyDate.is_leap (q * 400 + 1 + c * 100 + y4 * 4 + y1)
  = (y1 =? 3) && (negb (y4 =? 24) || (c =? 3)).
Proof.
  intros Hc H4 H1. unfold PyDate.is_leap.
  set (year := q * 400 + 1 + c * 100 + y4 * 4 + y1).
  replace (year mod 4) with ((1 + y1) mod 4)
    by (rewrite <- (Z_mod_plus_full (1 + y1) (q * 100 + c * 25 + y4) 4); f_equal; lia).
  replace (year mod 100) with ((1 + y4 * 4 + y1) mod 100)
    by (rewrite <- (Z_mod_plus_full (1 + y4 * 4 + y1) (q * 4 + c) 100); f_equal; lia).
  replace (year mod 400) with ((1 + c * 100 + y4 * 4 + y1) mod 400)
    by (rewrite <- (Z_mod_plus_full (1 + c * 100 + y4 * 4 + y1) q 400); f_equal; lia).
  clear year.
  repeat match goal with |- context [Z.eqb ?a ?b] => destruct (Z.eqb_spec a b) end;
    simpl; try reflexivity; exfalso; Z.div_mod_to_equations; lia.
Qed.

Lemma ord2ymd_unfold (n : Z) :
  PyDate.ord2ymd n =
    let n0 := n - 1 in
    let q := n0 / PyDate.DI400Y in
    let r := n0 mod PyDate.DI400Y in
    let c := r / PyDate.DI100Y in
    let r1 := r mod PyDate.DI100Y in
    let y4 := r1 / PyDate.DI4Y in
    let r2 := r1 mod PyDate.DI4Y in
    let y1 := r2 / 365 in
    let r3 := r2 mod 365 in
    let year := q * 400 + 1 + c * 100 + y4 * 4 + y1 in
    if (y1 =? 4) || (c =? 4) then (year - 1, 12, 31)
    else
      let '(m, d) := month_day ((y1 =? 3) && (negb (y4 =? 24) || (c =? 3))) r3 in
      (year, m, d).
Proof.
  unfold PyDate.ord2ymd, month_day. cbv zeta.
  repeat match goal with |- context [if ?b then _ else _] => destruct b end; reflexivity.
Qed.

(** The year, month and day of the ordinal of a date form a date, the
    one of that ordinal. *)
Lemma ord2ymd_spec (n : Z) :
  PyDate.date_ok n ->
  exists y m d,
    PyDate.ord2ymd n = (y, m, d)
    /\ PyDate.MINYEAR <= y <= PyDate.MAXYEAR /\ 1 <= m <= 12
    /\ 1 <= d <= PyDate.days_in_month y m /\ PyDate.ymd2ord y m d = n.
Proof.
  unfold PyDate.date_ok, PyDate.MAXORDINAL, PyDate.MINYEAR, PyDate.MAXYEAR. intros Hn.
  rewrite ord2ymd_unfold. cbv zeta.
  set (n0 := n - 1).
  pose proof (Z.div_mod n0 PyDate.DI400Y ltac:(discriminate)) as E0.
  pose proof (Z.mod_pos_bound n0 PyDate.DI400Y ltac:(reflexivity)) as B0.
  set (q := n0 / PyDate.DI400Y) in *. set (r := n0 mod PyDate.DI400Y) in *.
  pose proof (Z.div_mod r PyDate.DI100Y ltac:(discriminate)) as E1.
  pose proof (Z.mod_pos_bound r PyDate.DI100Y ltac:(reflexivity)) as B1.
  set (c := r / PyDate.DI100Y) in *. set (r1 := r mod PyDate.DI100Y) in *.
  pose proof (Z.div_mod r1 PyDate.DI4Y ltac:(discriminate)) as E2.
  pose proof (Z.mod_pos_bound r1 PyDate.DI4Y ltac:(reflexivity)) as B2.
  set (y4 := r1 / PyDate.DI4Y) in *. set (r2 := r1 mod PyDate.DI4Y) in *.
  pose proof (Z.div_mod r2 365 ltac:(discriminate)) as E3.
  pose proof (Z.mod_pos_bound r2 365 ltac:(reflexivity)) as B3.
  set (y1 := r2 / 365) in *. set (r3 := r2 mod 365) in *.
  clearbody q r c r1 y4 r2 y1 r3.
  unfold PyDate.DI400Y, PyDate.DI100Y, PyDate.DI4Y in *.
  assert (Hq : 0 <= q) by lia.
  assert (Hc : 0 <= c <= 4) by lia.
  assert (H4 : 0 <= y4 <= 24) by lia.
  assert (H1 : 0 <= y1 <= 4) by lia.
  destruct ((y1 =? 4) || (c =? 4)) eqn:Hspecial.
  - (* the last day of a leap year *)
    assert (Hy : exists c' y4', 0 <= c' <= 3 /\ 0 <= y4' <= 24 /\ (y4' <> 24 \/ c' = 3)
              /\ q * 400 + 1 + c * 100 + y4 * 4 + y1 - 1
                 = q * 400 + 1 + c' * 100 + y4' * 4 + 3
              /\ n = q * 146097 + c' * 36524 + y4' * 1461 + 3 * 365 + 366).
    { destruct (Z.eqb_spec c 4) as [-> | Hc4].
      - exists 3, 24. lia.
      - destruct (Z.eqb_spec y1 4) as [-> | H14]; [| discriminate].
        exists c, y4. lia. }
    destruct Hy as (c' & y4' & Hc' & H4' & Hleap & -> & Hnn).
    eexists _, 12, 31. split; [reflexivity |].
    assert (Leap : PyDate.is_leap (q * 400 + 1 + c' * 100 + y4' * 4 + 3) = true).
    { rewrite is_leap_split by lia. simpl.
      destruct (Z.eqb_spec y4' 24), (Z.eqb_spec c' 3); simpl; try reflexivity; lia. }
    unfold PyDate.ymd2ord, PyDate.days_in_month, PyDate.days_before_month.
    rewrite Leap, days_before_year_split by lia.
    unfold PyDate.DI400Y, PyDate.DI100Y, PyDate.DI4Y. simpl. lia.
  - apply orb_false_elim in Hspecial as [H14%Z.eqb_neq Hc4%Z.eqb_neq].
    pose proof (month_day_spec ((y1 =? 3) && (negb (y4 =? 24) || (c =? 3))) r3) as Hmd.
    rewrite <- (is_leap_split q c y4 y1) in * by lia.
    set (year := q * 400 + 1 + c * 100 + y4 * 4 + y1) in *.
    destruct (month_day (PyDate.is_leap year) r3) as [m d] eqn:Emd.
    unfold month_day_ok in Hmd. rewrite Emd in Hmd.
    assert (Hr3 : 0 <= r3 < 365 + (if PyDate.is_leap year then 1 else 0))
      by (destruct (PyDate.is_leap year); lia).
    specialize (Hmd Hr3).
    repeat (apply andb_prop in Hmd as [Hmd ?]).
    exists year, m, d. split; [reflexivity |].
    unfold PyDate.ymd2ord, PyDate.days_in_month, PyDate.days_before_month.
    subst year. rewrite days_before_year_split by lia.
    unfold PyDate.DI400Y, PyDate.DI100Y, PyDate.DI4Y. lia.
Qed.

Lemma make_date_Ok (y m d : Z) (o : PyDate.date) :
  PyDate.make_date y m d = Ok o ->
  PyDate.MINYEAR <= y <= PyDate.MAXYEAR /\ 1 <= m <= 12
  /\ 1 <= d <= PyDate.days_in_month y m /\ o = PyDate.ymd2ord y m d.
Proof.
  unfold PyDate.make_date.
  destruct ((PyDate.MINYEAR <=? y) && (y <=? PyDate.MAXYEAR)) eqn:Ey; simpl;
    [| discriminate].
  destruct ((1 <=? m) && (m <=? 12)) eqn:Em; simpl; [| discriminate].
  destruct ((1 <=? d) && (d <=? PyDate.days_in_month y m)) eqn:Ed; simpl;
    [| discriminate].
  intros [= <-].
  apply andb_prop in Ey as [? ?], Em as [? ?], Ed as [? ?]. lia.
Qed.

(** A year in cycles of 400, 100, 4 and 1 years. *)
Lemma year_cycles (y : Z) :
  1 <= y ->
  exists q c y4 y1,
    0 <= q /\ 0 <= c <= 3 /\ 0 <= y4 <= 24 /\ 0 <= y1 <= 3
    /\ y = q * 400 + 1 + c * 100 + y4 * 4 + y1.
Proof.
  intros Hy.
  exists ((y - 1) / 400), ((y - 1) mod 400 / 100), ((y - 1) mod 100 / 4), ((y - 1) mod 4).
  Z.div_mod_to_equations. lia.
Qed.

Lemma days_in_month_before (y m : Z) :
  1 <= m <= 12 ->
  0 <= PyDate.days_before_month y m
  /\ PyDate.days_before_month y m + PyDate.days_in_month y m
     <= 365 + (if PyDate.is_leap y then 1 else 0).
Proof.
  intros Hm. unfold PyDate.days_before_month, PyDate.days_in_month.
  assert (m = 1 \/ m = 2 \/ m = 3 \/ m = 4 \/ m = 5 \/ m = 6 \/ m = 7 \/ m = 8
          \/ m = 9 \/ m = 10 \/ m = 11 \/ m = 12) as H by lia.
  destruct (PyDate.is_leap y);
    repeat (destruct H as [-> | H]; [simpl; lia |]); subst; simpl; lia.
Qed.

(** The ordinal of a date the constructor accepts is in the range of
    the library. *)
Lemma ymd2ord_range (y m d : Z) :
  PyDate.MINYEAR <= y <= PyDate.MAXYEAR -> 1 <= m <= 12 ->
  1 <= d <= PyDate.days_in_month y m ->
  PyDate.date_ok (PyDate.ymd2ord y m d).
Proof.
  unfold PyDate.MINYEAR, PyDate.MAXYEAR, PyDate.date_ok, PyDate.MAXORDINAL.
  intros Hy Hm Hd.
  destruct (year_cycles y ltac:(lia)) as (q & c & y4 & y1 & Hq & Hc & H4 & H1 & ->).
  pose proof (days_in_month_before (q * 400 + 1 + c * 100 + y4 * 4 + y1) m Hm) as Hb.
  unfold PyDate.ymd2ord.
  rewrite is_leap_split in Hb by lia.
  rewrite days_before_year_split by lia.
  unfold PyDate.DI400Y, PyDate.DI100Y, PyDate.DI4Y.
  assert (q <= 24) by lia.
  destruct ((y1 =? 3) && (negb (y4 =? 24) || (c =? 3))) eqn:Leap.
  - apply andb_prop in Leap as [E1%Z.eqb_eq _]. lia.
  - lia.
Qed.

(** The ordinals from 1000-01-01 on are those of the years of four
    digits. *)
Lemma ymd2ord_year_1000 (y m d : Z) :
  PyDate.MINYEAR <= y <= PyDate.MAXYEAR -> 1 <= m <= 12 ->
  1 <= d <= PyDate.days_in_month y m ->
  (1000 <= y <-> 364878 <= PyDate.ymd2ord y m d).
Proof.
  unfold PyDate.MINYEAR, PyDate.MAXYEAR. intros Hy Hm Hd.
  destruct (year_cycles y ltac:(lia)) as (q & c & y4 & y1 & Hq & Hc & H4 & H1 & ->).
  pose proof (days_in_month_before (q * 400 + 1 + c * 100 + y4 * 4 + y1) m Hm) as Hb.
  unfold PyDate.ymd2ord.
  rewrite is_leap_split in Hb by lia.
  rewrite days_before_year_split by lia.
  unfold PyDate.DI400Y, PyDate.DI100Y, PyDate.DI4Y.
  assert (q <= 24) by lia.
  destruct ((y1 =? 3) && (negb (y4 =? 24) || (c =? 3))) eqn:Leap.
  - apply andb_prop in Leap as [E1%Z.eqb_eq _]. lia.
  - lia.
Qed.

(** ** Dates: [strptime] reads what [strftime] writes *)

Lemma digit_char_spec (k : Z) :
  0 <= k <= 9 ->
  PyStr.is_digit (PyDate.digit_char k) = true
  /\ PyDate.digit_val (PyDate.digit_char k) = k.
Proof.
  intros Hk.
  assert (k = 0 \/ k = 1 \/ k = 2 \/ k = 3 \/ k = 4 \/ k = 5 \/ k = 6 \/ k = 7
          \/ k = 8 \/ k = 9) as H by lia.
  repeat (destruct H as [-> | H]; [split; reflexivity |]). subst. split; reflexivity.
Qed.

Lemma parse_year_strftime (y : Z) (rest : string) :
  0 <= y <= 9999 ->
  PyDate.parse_year
    (String (PyDate.digit_char (y / 1000)) (String (PyDate.digit_char (y / 100 mod 10))
    (String (PyDate.digit_char (y / 10 mod 10)) (String (PyDate.digit_char (y mod 10))
     rest))))
  = Some (y, rest).
Proof.
  intros Hy. unfold PyDate.parse_year.
  destruct (digit_char_spec (y / 1000)) as [-> ->]; [Z.div_mod_to_equations; lia |].
  destruct (digit_char_spec (y / 100 mod 10)) as [-> ->]; [Z.div_mod_to_equations; lia |].
  destruct (digit_char_spec (y / 10 mod 10)) as [-> ->]; [Z.div_mod_to_equations; lia |].
  destruct (digit_char_spec (y mod 10)) as [-> ->]; [Z.div_mod_to_equations; lia |].
  simpl. do 2 f_equal. Z.div_mod_to_equations. lia.
Qed.

Lemma parse_month_strftime (m : Z) (rest : string) :
  1 <= m <= 12 ->
  PyDate.parse_month
    (String (PyDate.digit_char (m / 10)) (String (PyDate.digit_char (m mod 10)) rest))
  = Some (m, rest).
Proof.
  intros Hm.
  assert (m = 1 \/ m = 2 \/ m = 3 \/ m = 4 \/ m = 5 \/ m = 6 \/ m = 7 \/ m = 8
          \/ m = 9 \/ m = 10 \/ m = 11 \/ m = 12) as H by lia.
  repeat (destruct H as [-> | H]; [reflexivity |]). subst. reflexivity.
Qed.

Lemma parse_day_strftime (d : Z) :
  1 <= d <= 31 ->
  PyDate.parse_day
    (String (PyDate.digit_char (d / 10)) (String (PyDate.digit_char (d mod 10)) EmptyString))
  = Some (d, EmptyString).
Proof.
  intros Hd.
  assert (Forall (fun d =>
            PyDate.parse_day
              (String (PyDate.digit_char (d / 10))
                 (String (PyDate.digit_char (d mod 10)) EmptyString))
            = Some (d, EmptyString)) (seqZ 1 31)) as H
    by (repeat constructor).
  rewrite Forall_forall in H. apply H, elem_of_seqZ. lia.
Qed.

Lemma days_in_month_le_31 (y m : Z) : PyDate.days_in_month y m <= 31.
Proof.
  unfold PyDate.days_in_month.
  destruct ((m =? 2) && PyDate.is_leap y); [lia |].
  destruct (Z.to_nat m) as [| [| [| [| [| [| [| [| [| [| [| [| [| k]]]]]]]]]]]]];
    simpl; try lia.
  destruct k; simpl; lia.
Qed.

Lemma four_digit_year_ok (d : PyDate.date) : four_digit_year d -> PyDate.date_ok d.
Proof. unfold four_digit_year, PyDate.date_ok. lia. Qed.

Lemma strptime_strftime (d : PyDate.date) :
  four_digit_year d -> PyDate.strptime (PyDate.strftime d) = Ok d.
Proof.
  intros H4. pose proof (four_digit_year_ok d H4) as Hd.
  destruct (ord2ymd_spec d Hd) as (y & m & dd & E & Hy & Hm & Hdd & Hord).
  pose proof (ymd2ord_year_1000 y m dd Hy Hm Hdd) as H1000.
  rewrite Hord in H1000. unfold four_digit_year in H4.
  unfold PyDate.MINYEAR, PyDate.MAXYEAR in Hy.
  pose proof (days_in_month_le_31 y m) as H31.
  unfold PyDate.strftime, PyDate.strptime, PyDate.year_text. rewrite E.
  replace (y <? 10) with false by (symmetry; apply Z.ltb_ge; lia).
  replace (y <? 100) with false by (symmetry; apply Z.ltb_ge; lia).
  replace (y <? 1000) with false by (symmetry; apply Z.ltb_ge; lia).
  rewrite parse_year_strftime by lia. simpl PyDate.expect_hyphen. cbv iota beta.
  rewrite parse_month_strftime by lia. simpl PyDate.expect_hyphen. cbv iota beta.
  rewrite parse_day_strftime by lia.
  unfold PyDate.make_date, PyDate.MINYEAR, PyDate.MAXYEAR.
  repeat match goal with
         | |- context [negb (?a && ?b)] =>
             replace (a && b) with true by (symmetry; apply andb_true_intro; lia)
         end.
  simpl. now rewrite Hord.
Qed.

(** The text written for a date before 1000-01-01 has a year of less
    than four digits, which [strptime] does not read. *)
Lemma strptime_strftime_short (d : PyDate.date) :
  PyDate.date_ok d -> d < 364878 ->
  PyDate.strptime (PyDate.strftime d) = Raise ValueError.
Proof.
  intros Hd Hlt.
  destruct (ord2ymd_spec d Hd) as (y & m & dd & E & Hy & Hm & Hdd & Hord).
  pose proof (ymd2ord_year_1000 y m dd Hy Hm Hdd) as H1000.
  rewrite Hord in H1000.
  unfold PyDate.strftime, PyDate.strptime, PyDate.year_text, PyDate.parse_year.
  rewrite E.
  destruct (y <? 10); [| destruct (y <? 100); [| destruct (Z.ltb_spec y 1000); [| lia]]];
    repeat match goal with
           | |- context [PyStr.is_digit (PyDate.digit_char ?k)] =>
               destruct (PyStr.is_digit (PyDate.digit_char k))
           end; reflexivity.
Qed.

(** ** Lookup by id *)

Ltac run_method :=
  unfold mbind, M_bind, mret, M_ret, raise, gets, modify, assign; simpl.

Lemma find_pos_spec (l : list Task.t) (task_id : Z) :
  match find_pos l task_id with
  | Some r => exists x, l !! r = Some x /\ Task.id x = task_id /\ find_in l task_id = Some x
  | None => find_in l task_id = None
  end.
Proof.
  induction l as [| y l IH]; simpl; [reflexivity |].
  destruct (decide (Task.id y = task_id)) as [E | NE]; simpl.
  - exists y. auto.
  - destruct (find_pos l task_id) as [r |]; simpl; [| exact IH].
    destruct IH as (x & Hx & Hid & Hfind). exists x. auto.
Qed.

Lemma find_in_Some (l : list Task.t) (task_id : Z) (x : Task.t) :
  find_in l task_id = Some x -> x ∈ l /\ Task.id x = task_id.
Proof.
  induction l as [| y l IH]; simpl; [discriminate |].
  destruct (decide (Task.id y = task_id)) as [E | NE].
  - intros [= ->]. split; [left | exact E].
  - intros H. destruct (IH H). split; [now right | assumption].
Qed.

Lemma find_in_None (l : list Task.t) (task_id : Z) :
  find_in l task_id = None <-> forall x, x ∈ l -> Task.id x <> task_id.
Proof.
  induction l as [| y l IH]; simpl.
  - split; [intros _ x Hx; inversion Hx | reflexivity].
  - destruct (decide (Task.id y = task_id)) as [E | NE].
    + split; [discriminate |]. intros H. exfalso. apply (H y); [left | exact E].
    + rewrite IH. split.
      * intros H x Hx. inversion Hx; subst; auto.
      * intros H x Hx. apply H. now right.
Qed.

(** A task appended with an id no task has is the one found by its id. *)
Lemma find_in_app_fresh (l : list Task.t) (x : Task.t) :
  (forall y, y ∈ l -> Task.id y <> Task.id x) ->
  find_in (l ++ [x]) (Task.id x) = Some x.
Proof.
  induction l as [| y l IH]; simpl; intros H.
  - destruct (decide (Task.id x = Task.id x)); congruence.
  - destruct (decide (Task.id y = Task.id x)) as [E | NE].
    + exfalso. apply (H y); [left | exact E].
    + apply IH. intros z Hz. apply H. now right.
Qed.

(** ** The id counter *)

Lemma foldl_max_spec (rest : list Task.t) (m0 : Z) :
  let m := foldl (fun m x => Z.max m (Task.id x)) m0 rest in
  m0 <= m /\ (forall x, x ∈ rest -> Task.id x <= m)
  /\ (m = m0 \/ exists x, x ∈ rest /\ Task.id x = m).
Proof.
  revert m0. induction rest as [| y rest IH]; intros m0; simpl.
  - split; [lia |]. split; [intros x Hx; inversion Hx | now left].
  - destruct (IH (Z.max m0 (Task.id y))) as (Hle & Hall & Hex).
    split; [lia |]. split.
    + intros x Hx. inversion Hx; subst; [lia | auto].
    + destruct Hex as [E | (x & Hx & E)].
      * destruct (Z.max_spec m0 (Task.id y)) as [[_ E'] | [_ E']].
        -- right. exists y. split; [left | lia].
        -- left. lia.
      * right. exists x. split; [now right | exact E].
Qed.

Lemma max_id_spec (first : Task.t) (rest : list Task.t) :
  is_max_id (first :: rest) (max_id first rest).
Proof.
  unfold max_id. destruct (foldl_max_spec rest (Task.id first)) as (Hle & Hall & Hex).
  split.
  - destruct Hex as [E | (x & Hx & E)].
    + exists first. split; [left | now rewrite E].
    + exists x. split; [now right | exact E].
  - intros x Hx. inversion Hx; subst; auto.
Qed.

Lemma recompute_spec (s : state) :
  let s' := snd (_recompute_next_id s) in
  task_list s' = task_list s /\ filename s' = filename s /\ files s' = files s
  /\ recomputed (task_list s') (_next_id s').
Proof.
  unfold _recompute_next_id. run_method.
  destruct (task_list s) as [| first rest] eqn:E; simpl; rewrite E.
  - repeat split. now left.
  - repeat split. right. exists (max_id first rest). split; [apply max_id_spec | reflexivity].
Qed.

Lemma recomputed_below (l : list Task.t) (n : Z) :
  recomputed l n -> forall x, x ∈ l -> Task.id x < n.
Proof.
  intros [[-> ->] | (m & [_ Hmax] & ->)] x Hx.
  - inversion Hx.
  - specialize (Hmax x Hx). lia.
Qed.

(** ** What each method does to the state *)

Lemma add_task_valid (title priority : string) (due_date : PyDate.date) (s : state) :
  PyStr.title priority ∈ Task.VALID_PRIORITIES ->
  let x := Task.init (_next_id s) title (PStr (PyStr.title priority)) due_date
             Task.DEFAULT_STATUS in
  exists s',
    add_task title priority due_date s = (Ok x, s')
    /\ task_list s' = (task_list s ++ [x])%list
    /\ _next_id s' = _next_id s + 1
    /\ filename s' = filename s.
Proof.
  intros Hp. unfold add_task. destruct (decide _) as [_ | N]; [| contradiction].
  unfold _generate_id, save_to_file. run_method. eexists. repeat split.
Qed.

Lemma add_task_invalid (title priority : string) (due_date : PyDate.date) (s : state) :
  PyStr.title priority ∉ Task.VALID_PRIORITIES ->
  add_task title priority due_date s = (Raise ValueError, s).
Proof.
  intros Hp. unfold add_task. destruct (decide _) as [Y | _]; [contradiction | reflexivity].
Qed.

Lemma fmap_id_alter (f : Task.t -> Task.t) (r : nat) (l : list Task.t) :
  (forall x, Task.id (f x) = Task.id x) ->
  Task.id <$> alter f r l = Task.id <$> l.
Proof.
  intros Hf. revert r. induction l as [| y l IH]; intros [| r]; simpl; try reflexivity.
  - now rewrite Hf.
  - f_equal. apply IH.
Qed.

(** [update_task] changes neither an id nor the counter, whatever its
    outcome. *)
Lemma update_task_ids (task_id : Z) (title priority : option string)
    (due_date : option PyDate.date) (status : option string) (s : state) :
  let s' := snd (update_task task_id title priority due_date status s) in
  Task.id <$> task_list s' = Task.id <$> task_list s /\ _next_id s' = _next_id s.
Proof.
  unfold update_task, find_ref, save_to_file. run_method.
  destruct (find_pos (task_list s) task_id) as [r |]; simpl; [| auto].
  destruct title, priority, due_date, status; simpl;
    repeat (destruct (decide _); simpl);
    rewrite ?fmap_id_alter by (intros []; reflexivity); auto.
Qed.

Lemma delete_task_spec (task_id : Z) (s : state) :
  match find_pos (task_list s) task_id with
  | None => delete_task task_id s = (Ok false, s)
  | Some r =>
      exists s',
        delete_task task_id s = (Ok true, s')
        /\ task_list s' = delete r (task_list s)
        /\ recomputed (task_list s') (_next_id s')
  end.
Proof.
  unfold delete_task, find_ref. run_method.
  destruct (find_pos (task_list s) task_id) as [r |]; simpl; [| reflexivity].
  unfold save_to_file. run_method.
  eexists. split; [reflexivity |].
  destruct (delete r (task_list s)) as [| first rest] eqn:E; simpl.
  - split; [reflexivity | now left].
  - split; [reflexivity |]. right. exists (max_id first rest).
    split; [apply max_id_spec | reflexivity].
Qed.

Lemma load_from_file_spec (s : state) :
  let s' := snd (load_from_file s) in
  recomputed (task_list s') (_next_id s').
Proof.
  unfold load_from_file, start_empty.
  destruct (files s !! filename s) as [[| data | | data] |]; run_method; try (now left).
  all: destruct (forallb json_mapping data); run_method; [| now left].
  all: destruct (res_mapM Task.from_dict data) as [l | e]; run_method; [| now left].
  all: apply (recompute_spec (set_task_list l s)).
Qed.

(** ** The counter is above every id, in every state of a manager *)

Lemma ids_below_next_fmap (s s' : state) :
  Task.id <$> task_list s' = Task.id <$> task_list s ->
  _next_id s' = _next_id s ->
  ids_below_next s -> ids_below_next s'.
Proof.
  intros Hl Hn H x Hx. rewrite Hn.
  apply (list_elem_of_fmap_2 Task.id) in Hx. rewrite Hl in Hx.
  apply list_elem_of_fmap_1 in Hx as (y & -> & Hy). now apply H.
Qed.

Lemma step_ids_below_next (s s' : state) :
  ids_below_next s -> step s s' -> ids_below_next s'.
Proof.
  intros H Hstep. destruct Hstep.
  - destruct (decide (PyStr.title priority ∈ Task.VALID_PRIORITIES)) as [Hp | Hp].
    + destruct (add_task_valid title priority due_date s Hp) as (s' & -> & Hl & Hn & _).
      simpl. intros x Hx. rewrite Hl in Hx. rewrite Hn.
      apply elem_of_app in Hx as [Hx | Hx].
      * specialize (H x Hx). lia.
      * apply list_elem_of_singleton in Hx as ->. simpl. lia.
    + now rewrite add_task_invalid.
  - destruct (update_task_ids task_id title priority due_date status s) as [Hl Hn].
    now apply (ids_below_next_fmap s).
  - destruct (update_task_ids task_id None None None (Some "Completed") s) as [Hl Hn].
    now apply (ids_below_next_fmap s).
  - pose proof (delete_task_spec task_id s) as Hd.
    destruct (find_pos (task_list s) task_id) as [r |].
    + destruct Hd as (s' & -> & _ & Hr). simpl. exact (recomputed_below _ _ Hr).
    + now rewrite Hd.
  - exact H.
  - exact (recomputed_below _ _ (load_from_file_spec s)).
  - exact H.
Qed.

Lemma reachable_ids_below_next (s : state) : reachable s -> ids_below_next s.
Proof.
  induction 1 as [filename fs | s s' _ IH Hstep].
  - exact (recomputed_below _ _ (load_from_file_spec (mkState [] filename 1 fs))).
  - exact (step_ids_below_next s s' IH Hstep).
Qed.

Lemma reachable_one_task_store : reachable one_task_store.
Proof.
  unfold one_task_store. eapply reachable_step; [apply reachable_init | apply step_add_task].
Qed.

(** C3. In every state of a manager the counter [_next_id] exceeds the
    id of every task of the collection.  After [load_from_file], and
    after every [delete_task] that succeeds, it is the counter
    recomputed from the collection: the largest id plus one, and 1 when
    the collection is empty; so it is after the deletion of the task
    with the largest id. *)
Theorem next_id_exceeds_ids (s : state) :
  reachable s ->
  ids_below_next s
  /\ (let s' := snd (load_from_file s) in
      fst (load_from_file s) = Ok tt
      /\ recomputed (task_list s') (_next_id s') /\ ids_below_next s')
  /\ (forall task_id s',
        delete_task task_id s = (Ok true, s') ->
        recomputed (task_list s') (_next_id s') /\ ids_below_next s')
  /\ (forall task_id,
        is_max_id (task_list s) task_id ->
        exists s', delete_task task_id s = (Ok true, s')
                   /\ recomputed (task_list s') (_next_id s')).
Proof.
  intros Hs. split; [exact (reachable_ids_below_next s Hs) |]. split; [| split].
  - pose proof (load_from_file_spec s) as Hr. simpl in *. split; [| split].
    + unfold load_from_file, start_empty.
      destruct (files s !! filename s) as [[| data | | data] |]; try reflexivity.
      all: destruct (forallb json_mapping data); [| reflexivity].
      all: destruct (res_mapM Task.from_dict data); reflexivity.
    + exact Hr.
    + exact (recomputed_below _ _ Hr).
  - intros task_id s' Hd. pose proof (delete_task_spec task_id s) as Hspec.
    destruct (find_pos (task_list s) task_id) as [r |].
    + destruct Hspec as (s'' & E & _ & Hr). rewrite E in Hd. injection Hd as <-.
      split; [exact Hr | exact (recomputed_below _ _ Hr)].
    + rewrite Hspec in Hd. discriminate.
  - intros task_id [(x & Hx & Hid) _].
    pose proof (delete_task_spec task_id s) as Hspec.
    pose proof (find_pos_spec (task_list s) task_id) as Hfind.
    destruct (find_pos (task_list s) task_id) as [r |].
    + destruct Hspec as (s' & E & _ & Hr). eauto.
    + exfalso. rewrite find_in_None in Hfind. exact (Hfind x Hx Hid).
Qed.

Lemma next_id_exceeds_ids_witness :
  reachable one_task_store
  /\ ids_below_next one_task_store
  /\ exists s', delete_task 1 one_task_store = (Ok true, s') /\ _next_id s' = 1.
Proof.
  split; [exact reachable_one_task_store |].
  destruct (next_id_exceeds_ids one_task_store reachable_one_task_store)
    as (Hbelow & _ & Hdel & _).
  split; [exact Hbelow |].
  eexists. split; [reflexivity | reflexivity].
Defined.

(** ** Adding, finding, updating *)

(** C5. In every state of a manager, [add_task] with a valid priority
    (in any case), any title and any due date returns a task, and
    [find_task_by_id] with the id of that task then returns the same
    task, equal on every field. *)
Theorem add_task_then_find (s : state) (title priority : string) (due_date : PyDate.date) :
  reachable s ->
  PyStr.title priority ∈ Task.VALID_PRIORITIES ->
  exists x s',
    add_task title priority due_date s = (Ok x, s')
    /\ find_task_by_id (Task.id x) s' = Some x.
Proof.
  intros Hs Hp.
  destruct (add_task_valid title priority due_date s Hp) as (s' & E & Hl & _).
  eexists _, s'. split; [exact E |].
  unfold find_task_by_id. rewrite Hl. apply find_in_app_fresh.
  intros y Hy. pose proof (reachable_ids_below_next s Hs y Hy). simpl. lia.
Qed.

Lemma add_task_then_find_witness :
  reachable one_task_store
  /\ PyStr.title "low" ∈ Task.VALID_PRIORITIES
  /\ exists x s',
       add_task "  Buy milk " "low" 739252 one_task_store = (Ok x, s')
       /\ find_task_by_id (Task.id x) s' = Some x.
Proof.
  assert (Hp : PyStr.title "low" ∈ Task.VALID_PRIORITIES) by (vm_compute; left).
  split; [exact reachable_one_task_store |]. split; [exact Hp |].
  exact (add_task_then_find one_task_store "  Buy milk " "low" 739252
           reachable_one_task_store Hp).
Defined.

(** C9. [update_task] with the id of a task of the store and no field
    returns [True] and leaves the collection as it was: every field of
    every task keeps its value. *)
Theorem update_task_no_fields (s : state) (task_id : Z) :
  (exists x, x ∈ task_list s /\ Task.id x = task_id) ->
  exists s',
    update_task task_id None None None None s = (Ok true, s')
    /\ task_list s' = task_list s
    /\ _next_id s' = _next_id s.
Proof.
  intros (x & Hx & Hid).
  pose proof (find_pos_spec (task_list s) task_id) as Hfind.
  unfold update_task, find_ref, save_to_file. run_method.
  destruct (find_pos (task_list s) task_id) as [r |]; simpl.
  - eexists. repeat split.
  - exfalso. rewrite find_in_None in Hfind. exact (Hfind x Hx Hid).
Qed.

Lemma update_task_no_fields_witness :
  (exists x, x ∈ task_list one_task_store /\ Task.id x = 1)
  /\ exists s',
       update_task 1 None None None None one_task_store = (Ok true, s')
       /\ task_list s' = task_list one_task_store
       /\ _next_id s' = _next_id one_task_store.
Proof.
  assert (H : exists x, x ∈ task_list one_task_store /\ Task.id x = 1).
  { eexists. split; [vm_compute; left | reflexivity]. }
  split; [exact H |]. exact (update_task_no_fields one_task_store 1 H).
Defined.

(** ** Filtering *)

(** C10. [filter_tasks] reads its argument [by] through [lower]: a
    call with [by] and the call with [by] in lower case return the same
    outcome, for every value, date and state. *)
Theorem filter_tasks_by_case_insensitive (by_ : string) (value : option string)
    (today : PyDate.date) (s : state) :
  filter_tasks by_ value today s = filter_tasks (PyStr.lower by_) value today s.
Proof. unfold filter_tasks. now rewrite lower_idem. Qed.

Lemma title_valid_status (v st : string) :
  st ∈ Task.VALID_STATUSES -> same_modulo_case v st ->
  PyStr.title v = st /\ PyStr.truthy v = true.
Proof.
  intros Hst Hv.
  rewrite (title_same_modulo_case v st Hv), (truthy_same_modulo_case v st Hv).
  unfold Task.VALID_STATUSES in Hst.
  repeat (apply elem_of_cons in Hst as [-> | Hst]; [split; reflexivity |]).
  inversion Hst.
Qed.

(** C6. [filter_tasks("status", v)], for [v] a valid status written in
    any case, returns the tasks whose status is that status in title
    case: exactly those, in the order of the collection.  It returns
    the empty list when the value is absent or empty. *)
Theorem filter_tasks_status (s : state) (today : PyDate.date) (v st : string) :
  st ∈ Task.VALID_STATUSES ->
  same_modulo_case v st ->
  let r := filter (fun x => Task.status x = PStr st) (task_list s) in
  PyStr.title v = st
  /\ filter_tasks "status" (Some v) today s = Ok r
  /\ r `sublist_of` task_list s
  /\ (forall x, x ∈ r <-> x ∈ task_list s /\ Task.status x = PStr st)
  /\ filter_tasks "status" None today s = Ok []
  /\ filter_tasks "status" (Some "") today s = Ok [].
Proof.
  intros Hst Hv r. destruct (title_valid_status v st Hst Hv) as [Ht Hne].
  split; [exact Ht |]. split; [| split; [| split; [| split]]].
  - unfold filter_tasks. simpl. now rewrite Hne, Ht.
  - apply sublist_filter.
  - intros x. subst r. rewrite list_elem_of_filter. tauto.
  - reflexivity.
  - reflexivity.
Qed.

Lemma filter_tasks_status_witness :
  "Completed" ∈ Task.VALID_STATUSES
  /\ same_modulo_case "cOMPLETED" "Completed"
  /\ filter_tasks "status" (Some "cOMPLETED") 739252 one_task_store = Ok [].
Proof.
  assert (H1 : "Completed" ∈ Task.VALID_STATUSES) by (right; left).
  assert (H2 : same_modulo_case "cOMPLETED" "Completed") by reflexivity.
  split; [exact H1 |]. split; [exact H2 |].
  exact (proj1 (proj2 (filter_tasks_status one_task_store 739252 "cOMPLETED" "Completed"
                         H1 H2))).
Defined.

(** C7. [filter_tasks("due_date", v)], for [v] the word week in any
    case, returns the tasks whose due date lies between today and the
    seventh day after today, both included: exactly those, in the
    order of the collection.  (The seventh day after today is a date:
    the library has no date after 9999-12-31.) *)
Theorem filter_tasks_week (s : state) (today : PyDate.date) (v : string) :
  same_modulo_case v "week" ->
  PyDate.date_ok today ->
  PyDate.date_ok (today + 7) ->
  let r := filter (fun x => today <= Task.due_date x <= today + 7) (task_list s) in
  filter_tasks "due_date" (Some v) today s = Ok r
  /\ r `sublist_of` task_list s
  /\ (forall x, x ∈ r <-> x ∈ task_list s /\ today <= Task.due_date x <= today + 7)
  /\ (forall x, x ∈ task_list s -> Task.due_date x = today -> x ∈ r)
  /\ (forall x, x ∈ task_list s -> Task.due_date x = today + 7 -> x ∈ r).
Proof.
  intros Hv Htoday Hweek r. unfold same_modulo_case in Hv. simpl in Hv.
  assert (Hmem : forall x,
             x ∈ r <-> x ∈ task_list s /\ today <= Task.due_date x <= today + 7)
    by (intros x; subst r; rewrite list_elem_of_filter; tauto).
  split; [| split; [apply sublist_filter | split; [exact Hmem | split]]].
  - unfold filter_tasks. simpl.
    assert (PyStr.truthy v = true) as -> by (destruct v; [discriminate | reflexivity]).
    rewrite Hv. simpl. unfold PyDate.add_days.
    unfold PyDate.date_ok in Hweek.
    replace ((0 <? today + 7) && (today + 7 <=? PyDate.MAXORDINAL)) with true
      by (symmetry; apply andb_true_intro; lia).
    reflexivity.
  - intros x Hx E. apply Hmem. split; [exact Hx | lia].
  - intros x Hx E. apply Hmem. split; [exact Hx | lia].
Qed.

Lemma filter_tasks_week_witness :
  same_modulo_case "Week" "week"
  /\ PyDate.date_ok 739245
  /\ PyDate.date_ok (739245 + 7)
  /\ filter_tasks "due_date" (Some "Week") 739245 one_task_store
     = Ok (task_list one_task_store).
Proof.
  assert (H1 : same_modulo_case "Week" "week") by reflexivity.
  assert (H2 : PyDate.date_ok 739245) by (unfold PyDate.date_ok, PyDate.MAXORDINAL; lia).
  assert (H3 : PyDate.date_ok (739245 + 7))
    by (unfold PyDate.date_ok, PyDate.MAXORDINAL; lia).
  split; [exact H1 |]. split; [exact H2 |]. split; [exact H3 |].
  exact (proj1 (filter_tasks_week one_task_store 739245 "Week" H1 H2 H3)).
Defined.

(** ** The sorted view *)

Arguments key_lt : simpl never.
Arguments sort_key : simpl never.

Lemma key_lt_spec (a b : Z * Z * Z) : key_lt a b = false <-> key_le b a.
Proof.
  destruct a as [[a1 a2] a3], b as [[b1 b2] b3]. unfold key_lt, key_le.
  destruct (Z.ltb_spec a1 b1), (Z.eqb_spec a1 b1), (Z.ltb_spec a2 b2),
    (Z.eqb_spec a2 b2), (Z.ltb_spec a3 b3); simpl; split; intros Hk;
    try discriminate; try reflexivity; lia.
Qed.

Lemma key_le_total (a b : Z * Z * Z) : key_le a b \/ key_le b a.
Proof. destruct a as [[a1 a2] a3], b as [[b1 b2] b3]. unfold key_le. lia. Qed.

Lemma key_le_trans (a b c : Z * Z * Z) : key_le a b -> key_le b c -> key_le a c.
Proof.
  destruct a as [[a1 a2] a3], b as [[b1 b2] b3], c as [[c1 c2] c3]. unfold key_le. lia.
Qed.

Lemma key_le_antisym (a b : Z * Z * Z) : key_le a b -> key_le b a -> a = b.
Proof.
  destruct a as [[a1 a2] a3], b as [[b1 b2] b3]. unfold key_le. intros H1 H2.
  repeat f_equal; lia.
Qed.

Lemma key_lt_irrefl_eq (a b : Z * Z * Z) : key_lt a b = true -> a <> b.
Proof.
  intros H ->. destruct b as [[b1 b2] b3]. unfold key_lt in H.
  rewrite !Z.ltb_irrefl in H. simpl in H. rewrite !andb_false_r in H. discriminate.
Qed.

Lemma insert_sorted_perm (x : Task.t) (l : list Task.t) : insert_sorted x l ≡ₚ x :: l.
Proof.
  induction l as [| y l IH]; simpl; [reflexivity |].
  destruct (key_lt (sort_key y) (sort_key x)); [| reflexivity].
  rewrite IH. apply Permutation_swap.
Qed.

Lemma sorted_perm (l : list Task.t) : sorted l ≡ₚ l.
Proof.
  induction l as [| x l IH]; simpl; [reflexivity |].
  rewrite insert_sorted_perm. now rewrite IH.
Qed.

Lemma insert_sorted_sorted (x : Task.t) (l : list Task.t) :
  StronglySorted task_le l -> StronglySorted task_le (insert_sorted x l).
Proof.
  induction 1 as [| y l Hl IH Hy]; simpl.
  - repeat constructor.
  - destruct (key_lt (sort_key y) (sort_key x)) eqn:E.
    + constructor; [exact IH |].
      rewrite (insert_sorted_perm x l). constructor; [| exact Hy].
      destruct (key_le_total (sort_key y) (sort_key x)) as [H | H]; [exact H |].
      apply key_lt_spec in H. congruence.
    + apply key_lt_spec in E.
      constructor; [constructor; assumption |].
      constructor; [exact E |].
      eapply Forall_impl; [exact Hy |]. intros z Hz.
      exact (key_le_trans _ _ _ E Hz).
Qed.

Lemma sorted_sorted (l : list Task.t) : StronglySorted task_le (sorted l).
Proof.
  induction l as [| x l IH]; simpl; [constructor | now apply insert_sorted_sorted].
Qed.

(** Stability: the tasks of one key come out in the order they came in. *)
Lemma insert_sorted_stable (k : Z * Z * Z) (x : Task.t) (l : list Task.t) :
  filter (fun y => sort_key y = k) (insert_sorted x l)
  = filter (fun y => sort_key y = k) (x :: l).
Proof.
  induction l as [| y l IH]; simpl; [reflexivity |].
  destruct (key_lt (sort_key y) (sort_key x)) eqn:E; [| reflexivity].
  apply key_lt_irrefl_eq in E.
  rewrite (filter_cons _ y), IH, !(filter_cons _ x), (filter_cons _ y).
  destruct (decide (sort_key y = k)), (decide (sort_key x = k)); try reflexivity.
  congruence.
Qed.

Lemma sorted_stable (k : Z * Z * Z) (l : list Task.t) :
  filter (fun y => sort_key y = k) (sorted l) = filter (fun y => sort_key y = k) l.
Proof.
  induction l as [| x l IH]; simpl; [reflexivity |].
  rewrite insert_sorted_stable, !(filter_cons _ x), IH. reflexivity.
Qed.

Lemma prio_rank_other (p : pyval) :
  p <> PStr "High" -> p <> PStr "Medium" -> p <> PStr "Low" -> prio_rank p = 3.
Proof.
  intros H1 H2 H3. destruct p as [n | p]; [reflexivity |].
  unfold prio_rank, prio_map.
  rewrite !lookup_insert_ne, lookup_empty by congruence. reflexivity.
Qed.

Lemma view_tasks_sorted (tasks : option (list Task.t)) (s : state) :
  view_tasks tasks s = sorted (default (task_list s) tasks).
Proof. unfold view_tasks. destruct (default (task_list s) tasks); reflexivity. Qed.

Lemma sorted_example (ta tb tc : string) (sa sb sc : pyval) (l : list Task.t) :
  l ≡ₚ [example_A ta sa; example_B tb sb; example_C tc sc] ->
  sorted l = [example_C tc sc; example_A ta sa; example_B tb sb].
Proof.
  intros H. symmetry in H. apply permutations_Permutation in H.
  cbn in H.
  repeat (apply elem_of_cons in H as [-> | H]; [reflexivity |]).
  inversion H.
Qed.

(** A sorted list is determined by the tasks of each key and their
    order: every stable sort returns the list [sorted] returns. *)
Lemma stable_sorted_unique (r1 r2 : list Task.t) :
  StronglySorted task_le r1 -> StronglySorted task_le r2 ->
  (forall k, filter (fun y => sort_key y = k) r1 = filter (fun y => sort_key y = k) r2) ->
  r1 = r2.
Proof.
  intros H1. revert r2. induction H1 as [| x r1 Hs1 IH Hx]; intros r2 H2 Hf.
  - destruct r2 as [| y r2]; [reflexivity |].
    specialize (Hf (sort_key y)). rewrite filter_nil, filter_cons in Hf.
    destruct (decide (sort_key y = sort_key y)); [discriminate | congruence].
  - destruct H2 as [| y r2 Hs2 Hy].
    + specialize (Hf (sort_key x)). rewrite filter_nil, filter_cons in Hf.
      destruct (decide (sort_key x = sort_key x)); [discriminate | congruence].
    + assert (Hxy : task_le x y).
      { assert (Hin : y ∈ x :: r1).
        { assert (Hin : y ∈ filter (fun z => sort_key z = sort_key y) (x :: r1)).
          { rewrite Hf, list_elem_of_filter. split; [reflexivity | left]. }
          apply list_elem_of_filter in Hin. tauto. }
        apply elem_of_cons in Hin as [-> | Hin].
        - destruct (key_le_total (sort_key x) (sort_key x)); assumption.
        - rewrite Forall_forall in Hx. exact (Hx y Hin). }
      assert (Hyx : task_le y x).
      { assert (Hin : x ∈ y :: r2).
        { assert (Hin : x ∈ filter (fun z => sort_key z = sort_key x) (y :: r2)).
          { rewrite <- Hf, list_elem_of_filter. split; [reflexivity | left]. }
          apply list_elem_of_filter in Hin. tauto. }
        apply elem_of_cons in Hin as [-> | Hin].
        - destruct (key_le_total (sort_key y) (sort_key y)); assumption.
        - rewrite Forall_forall in Hy. exact (Hy x Hin). }
      pose proof (key_le_antisym _ _ Hxy Hyx) as Ek.
      assert (x = y) as ->.
      { specialize (Hf (sort_key x)). rewrite !filter_cons in Hf.
        destruct (decide (sort_key x = sort_key x)); [| congruence].
        destruct (decide (sort_key y = sort_key x)); congruence. }
      f_equal. apply IH; [exact Hs2 |]. intros k.
      specialize (Hf k). rewrite !filter_cons in Hf.
      destruct (decide (sort_key y = k)); congruence.
Qed.

(** C8. The rows of [view_tasks] are the tasks sorted by the key
    (due date, rank of the priority, id), each ascending, with the
    ranks High 0, Medium 1, Low 2 and 3 for any other priority.  The
    order of the keys is total; the sort is a function of its input,
    returns a permutation of it in ascending order of the keys, and is
    stable; no other list is an ascending list that keeps the tasks of
    each key in their order.  Tasks A = (2025-01-01, High, 1),
    B = (2025-01-01, Medium, 2), C = (2024-12-31, Low, 3), given in any
    order, come out as C, A, B. *)
Theorem sorted_view (tasks : list Task.t) (s : state) :
  (view_tasks (Some tasks) s = sorted tasks /\ view_tasks None s = sorted (task_list s))
  /\ (forall x, sort_key x
                = (Task.due_date x, prio_rank (Task.priority x), Task.id x))
  /\ (prio_rank (PStr "High") = 0 /\ prio_rank (PStr "Medium") = 1
      /\ prio_rank (PStr "Low") = 2
      /\ forall p, p <> PStr "High" -> p <> PStr "Medium" -> p <> PStr "Low" ->
                   prio_rank p = 3)
  /\ ((forall a b, key_le a b \/ key_le b a)
      /\ (forall a b c, key_le a b -> key_le b c -> key_le a c)
      /\ (forall a b, key_le a b -> key_le b a -> a = b))
  /\ sorted tasks ≡ₚ tasks
  /\ StronglySorted task_le (sorted tasks)
  /\ (forall k, filter (fun x => sort_key x = k) (sorted tasks)
                = filter (fun x => sort_key x = k) tasks)
  /\ (forall r, StronglySorted task_le r ->
                (forall k, filter (fun x => sort_key x = k) r
                           = filter (fun x => sort_key x = k) tasks) ->
                r = sorted tasks)
  /\ (PyDate.strptime "2025-01-01" = Ok 739252
      /\ PyDate.strptime "2024-12-31" = Ok 739251
      /\ forall ta tb tc sa sb sc l,
           l ≡ₚ [example_A ta sa; example_B tb sb; example_C tc sc] ->
           view_tasks (Some l) s = [example_C tc sc; example_A ta sa; example_B tb sb]).
Proof.
  split; [split; apply view_tasks_sorted |].
  split; [reflexivity |].
  split; [repeat split; try reflexivity; exact prio_rank_other |].
  split; [repeat split; [exact key_le_total | exact key_le_trans | exact key_le_antisym] |].
  split; [apply sorted_perm |].
  split; [apply sorted_sorted |].
  split; [intros k; apply sorted_stable |].
  split.
  - intros r Hr Hk. apply stable_sorted_unique; [exact Hr | apply sorted_sorted |].
    intros k. now rewrite Hk, sorted_stable.
  - split; [reflexivity |]. split; [reflexivity |].
    intros ta tb tc sa sb sc l Hl. rewrite view_tasks_sorted. simpl.
    now apply sorted_example.
Qed.

(** ** Serialization *)

(** C4 fails on the code for the years before 1000.  [to_dict] writes
    the due date with [strftime], which does not pad the year, and
    [from_dict] reads it with [strptime], which wants four digits: the
    task (1, Old, Low, 0999-12-31, Pending) is written with the date
    999-12-31 and reading it back raises [ValueError]. *)
Theorem from_dict_rejects_unpadded_year :
  let x := Task.mk 1 "Old" (PStr "Low") 364877 (PStr "Pending") in
  PyDate.make_date 999 12 31 = Ok (Task.due_date x)
  /\ Task.to_dict x !! "due_date" = Some (PStr "999-12-31")
  /\ Task.from_dict (Task.to_dict x) = Raise ValueError.
Proof.
  intros x. split; [reflexivity |]. split; vm_compute; reflexivity.
Qed.

(** ** Titles are not validated by the store *)

(** C2, as stated, fails: [add_task] accepts a title of white space
    and stores a task whose title is empty. *)
Lemma add_task_blank_title_stored :
  PyStr.strip "   " = ""
  /\ exists x s',
       add_task "   " "Low" 739252 (init "tasks.json" ∅) = (Ok x, s')
       /\ task_list s' = [x]
       /\ Task.title x = "".
Proof.
  split; [reflexivity |]. eexists _, _.
  split; [vm_compute; reflexivity |]. split; reflexivity.
Qed.

(** C2, amended.  [add_task] validates the priority and nothing else:
    with a valid priority it succeeds for every title, appends the task
    and stores the title trimmed, which is the empty string for a title
    that is empty or white space.  Hence the titles of the store have a
    character that is not white space as long as the titles given to
    [add_task] have one. *)
Theorem add_task_stores_trimmed_title (s : state) (title priority : string)
    (due_date : PyDate.date) :
  PyStr.title priority ∈ Task.VALID_PRIORITIES ->
  exists x s',
    add_task title priority due_date s = (Ok x, s')
    /\ Task.title x = PyStr.strip title
    /\ task_list s' = (task_list s ++ [x])%list
    /\ (PyStr.strip title <> "" -> Forall nonblank (task_list s) ->
        Forall nonblank (task_list s')).
Proof.
  intros Hp.
  destruct (add_task_valid title priority due_date s Hp) as (s' & E & Hl & _).
  eexists _, s'. split; [exact E |]. split; [reflexivity |]. split; [exact Hl |].
  intros Hne Hall. rewrite Hl. apply Forall_app. split; [exact Hall |].
  constructor; [| constructor]. unfold nonblank. simpl.
  now rewrite (strip_idem title).
Qed.

Lemma add_task_stores_trimmed_title_witness :
  PyStr.title "HIGH" ∈ Task.VALID_PRIORITIES
  /\ exists x s',
       add_task "" "HIGH" 739252 one_task_store = (Ok x, s')
       /\ Task.title x = PyStr.strip ""
       /\ task_list s' = (task_list one_task_store ++ [x])%list
       /\ (PyStr.strip "" <> "" -> Forall nonblank (task_list one_task_store) ->
           Forall nonblank (task_list s')).
Proof.
  assert (Hp : PyStr.title "HIGH" ∈ Task.VALID_PRIORITIES) by (vm_compute; do 2 right; left).
  split; [exact Hp |].
  exact (add_task_stores_trimmed_title one_task_store "" "HIGH" 739252 Hp).
Defined.

(** ** An update that raises keeps the changes made before it raised *)

(** Whatever the state, a new title given with an invalid priority is
    assigned before the priority is rejected. *)
Lemma update_task_title_then_invalid_priority (s : state) (task_id : Z) (r : nat)
    (title priority : string) (due_date : option PyDate.date) (status : option string) :
  find_pos (task_list s) task_id = Some r ->
  PyStr.title priority ∉ Task.VALID_PRIORITIES ->
  update_task task_id (Some title) (Some priority) due_date status s
  = (Raise ValueError,
     set_task_list (alter (Task.set_title (PyStr.strip title)) r (task_list s)) s).
Proof.
  intros Hr Hp. unfold update_task, find_ref. run_method. rewrite Hr. simpl.
  destruct (decide (PyStr.title priority ∈ Task.VALID_PRIORITIES)); [contradiction |].
  reflexivity.
Qed.

(** An invalid priority given alone is rejected before anything is
    assigned. *)
Lemma update_task_invalid_priority_alone (s : state) (task_id : Z) (priority : string) :
  is_Some (find_pos (task_list s) task_id) ->
  PyStr.title priority ∉ Task.VALID_PRIORITIES ->
  update_task task_id None (Some priority) None None s = (Raise ValueError, s).
Proof.
  intros [r Hr] Hp. unfold update_task, find_ref. run_method. rewrite Hr. simpl.
  destruct (decide (PyStr.title priority ∈ Task.VALID_PRIORITIES)); [contradiction |].
  reflexivity.
Qed.

(** C1 fails on the code: [update_task] with a new title and an
    invalid priority raises [ValueError] after it has replaced the
    title; the file is not written. *)
Theorem update_task_raises_after_mutation :
  exists s',
    update_task 1 (Some "Changed") (Some "urgent") None None one_task_store
    = (Raise ValueError, s')
    /\ Task.title <$> task_list one_task_store = ["Write report"]
    /\ Task.title <$> task_list s' = ["Changed"]
    /\ files s' = files one_task_store.
Proof.
  eexists. split; [vm_compute; reflexivity |].
  split; [reflexivity |]. split; reflexivity.
Qed.

(** * Further properties of the code *)

(** ** What [from_dict] accepts *)

Lemma from_dict_Ok (data : gmap string pyval) (x : Task.t) :
  Task.from_dict data = Ok x ->
  exists ds i t,
    data !! "due_date" = Some (PStr ds) /\ PyDate.strptime ds = Ok (Task.due_date x)
    /\ data !! "id" = Some i /\ PyInt.int i = Ok (Task.id x)
    /\ data !! "title" = Some (PStr t) /\ Task.title x = PyStr.strip t
    /\ data !! "priority" = Some (Task.priority x)
    /\ Task.status x = default Task.DEFAULT_STATUS (data !! "status").
Proof.
  unfold Task.from_dict, Task.getitem.
  destruct (data !! "due_date") as [[n | ds] |]; simpl; try discriminate.
  destruct (PyDate.strptime ds) as [d |] eqn:Ed; simpl; try discriminate.
  destruct (data !! "id") as [i |]; simpl; try discriminate.
  destruct (PyInt.int i) as [n |] eqn:Ei; simpl; try discriminate.
  destruct (data !! "title") as [[n' | t] |]; simpl; try discriminate;
    destruct (data !! "priority") as [p |]; simpl; try discriminate.
  intros [= <-]. exists ds, i, t. simpl. repeat split; assumption.
Qed.

Lemma strptime_Ok (s : string) (d : PyDate.date) :
  PyDate.strptime s = Ok d -> PyDate.date_ok d.
Proof.
  unfold PyDate.strptime.
  destruct (PyDate.parse_year s) as [[y s1] |]; [| discriminate].
  destruct (PyDate.expect_hyphen s1) as [s2 |]; [| discriminate].
  destruct (PyDate.parse_month s2) as [[m s3] |]; [| discriminate].
  destruct (PyDate.expect_hyphen s3) as [s4 |]; [| discriminate].
  destruct (PyDate.parse_day s4) as [[dd s5] |]; [| discriminate].
  destruct s5; [| discriminate].
  intros H. apply make_date_Ok in H as (Hy & Hm & Hd & ->).
  now apply ymd2ord_range.
Qed.

Lemma from_dict_Ok_normal (data : gmap string pyval) (x : Task.t) :
  Task.from_dict data = Ok x ->
  trimmed (Task.title x) /\ PyDate.date_ok (Task.due_date x).
Proof.
  intros H.
  destruct (from_dict_Ok data x H) as (ds & i & t & _ & Hd & _ & _ & _ & Ht & _).
  split; [rewrite Ht; apply strip_idem | exact (strptime_Ok ds _ Hd)].
Qed.

Lemma from_dict_of_to_dict (x : Task.t) :
  trimmed (Task.title x) /\ four_digit_year (Task.due_date x) ->
  Task.from_dict (Task.to_dict x) = Ok x.
Proof.
  intros [Ht Hd]. destruct x as [i t p d st]. simpl in *.
  unfold Task.from_dict, Task.to_dict, Task.getitem. simpl.
  repeat (rewrite ?lookup_insert_eq, ?lookup_insert_ne by discriminate; simpl).
  rewrite strptime_strftime by exact Hd. simpl.
  unfold Task.init. unfold trimmed in Ht. now rewrite Ht.
Qed.

Lemma from_dict_of_to_dict_short (x : Task.t) :
  PyDate.date_ok (Task.due_date x) -> Task.due_date x < 364878 ->
  Task.from_dict (Task.to_dict x) = Raise ValueError.
Proof.
  intros Hd Hlt. destruct x as [i t p d st]. simpl in *.
  unfold Task.from_dict, Task.to_dict, Task.getitem. simpl.
  repeat (rewrite ?lookup_insert_eq, ?lookup_insert_ne by discriminate; simpl).
  now rewrite strptime_strftime_short.
Qed.

(** X1. A mapping [from_dict] accepts gives a task with a trimmed
    title and a due date of the library.  When the year of the date
    has four digits the task is a fixed point of writing and reading:
    [from_dict (to_dict x)] is [x].  When it has fewer, [to_dict]
    writes a date [from_dict] does not read, and
    [from_dict (to_dict x)] raises [ValueError]. *)
Theorem from_dict_normalizes (data : gmap string pyval) (x : Task.t) :
  Task.from_dict data = Ok x ->
  trimmed (Task.title x) /\ PyDate.date_ok (Task.due_date x)
  /\ (four_digit_year (Task.due_date x) -> Task.from_dict (Task.to_dict x) = Ok x)
  /\ (Task.due_date x < 364878 -> Task.from_dict (Task.to_dict x) = Raise ValueError).
Proof.
  intros H. pose proof (from_dict_Ok_normal data x H) as [Ht Hd].
  split; [exact Ht |]. split; [exact Hd |]. split.
  - intros H4. now apply from_dict_of_to_dict.
  - intros Hlt. now apply from_dict_of_to_dict_short.
Qed.

Lemma from_dict_normalizes_witness :
  let data : gmap string pyval :=
    <["id" := PStr " 7 "]> (<["title" := PStr "  Pay rent "]>
    (<["priority" := PStr "Medium"]> (<["due_date" := PStr "2025-1-1"]> ∅))) in
  let x := Task.mk 7 "Pay rent" (PStr "Medium") 739252 (PStr "Pending") in
  Task.from_dict data = Ok x
  /\ Task.from_dict (Task.to_dict x) = Ok x.
Proof.
  intros data x.
  assert (H : Task.from_dict data = Ok x) by (vm_compute; reflexivity).
  split; [exact H |].
  apply (proj1 (proj2 (proj2 (from_dict_normalizes data x H)))).
  unfold four_digit_year, PyDate.MAXORDINAL. simpl. lia.
Defined.

(** X2. In a mapping written by [to_dict] for a task with a trimmed
    title and a due date whose year has four digits, each of the keys
    id, title, priority and due_date is required: without it
    [from_dict] raises [KeyError].  The key status is optional: without
    it the task is read with the status Pending. *)
Theorem from_dict_missing_key (x : Task.t) (k : string) :
  trimmed (Task.title x) ->
  four_digit_year (Task.due_date x) ->
  (k ∈ ["id"; "title"; "priority"; "due_date"] ->
   Task.from_dict (delete k (Task.to_dict x)) = Raise KeyError)
  /\ Task.from_dict (delete "status" (Task.to_dict x))
     = Ok (Task.set_status (PStr "Pending") x).
Proof.
  intros Ht Hd. destruct x as [i t p d st]. simpl in *. unfold trimmed in Ht.
  split.
  - intros Hk.
    repeat (apply elem_of_cons in Hk as [-> | Hk];
            [unfold Task.from_dict, Task.to_dict, Task.getitem; simpl;
             repeat (rewrite ?lookup_delete_eq, ?lookup_delete_ne, ?lookup_insert_eq,
                       ?lookup_insert_ne by discriminate; simpl);
             rewrite ?strptime_strftime by exact Hd; reflexivity |]).
    inversion Hk.
  - unfold Task.from_dict, Task.to_dict, Task.getitem. simpl.
    repeat (rewrite ?lookup_delete_eq, ?lookup_delete_ne, ?lookup_insert_eq,
              ?lookup_insert_ne, ?lookup_empty by discriminate; simpl).
    rewrite strptime_strftime by exact Hd. simpl.
    unfold Task.init, Task.set_status, Task.DEFAULT_STATUS. simpl. now rewrite Ht.
Qed.

Lemma from_dict_missing_key_witness :
  let x := Task.mk 7 "Pay rent" (PStr "Medium") 739252 (PStr "Completed") in
  trimmed (Task.title x) /\ four_digit_year (Task.due_date x)
  /\ Task.from_dict (delete "title" (Task.to_dict x)) = Raise KeyError.
Proof.
  intros x.
  assert (H1 : trimmed (Task.title x)) by reflexivity.
  assert (H2 : four_digit_year (Task.due_date x))
    by (unfold four_digit_year, PyDate.MAXORDINAL; simpl; lia).
  split; [exact H1 |]. split; [exact H2 |].
  apply (proj1 (from_dict_missing_key x "title" H1 H2)). right. left.
Defined.

(** ** Invariants of the states of a manager *)

Lemma recomputed_unique (l : list Task.t) (n n' : Z) :
  recomputed l n -> recomputed l n' -> n = n'.
Proof.
  intros [[-> ->] | (m & [(x & Hx & Ex) Hm] & ->)]
         [[E ->] | (m' & [(x' & Hx' & Ex') Hm'] & ->)].
  - reflexivity.
  - inversion Hx'.
  - subst l. inversion Hx.
  - pose proof (Hm x' Hx'). pose proof (Hm' x Hx). lia.
Qed.

Lemma recomputed_ids (l l' : list Task.t) (n : Z) :
  Task.id <$> l = Task.id <$> l' -> recomputed l n -> recomputed l' n.
Proof.
  intros E [[-> ->] | (m & [(x & Hx & Ex) Hm] & ->)].
  - left. split; [| reflexivity]. symmetry in E. now apply fmap_nil_inv in E.
  - right. exists m. split; [| reflexivity]. split.
    + apply (list_elem_of_fmap_2 Task.id) in Hx. rewrite E in Hx.
      apply list_elem_of_fmap_1 in Hx as (y & Ey & Hy). exists y. split; congruence.
    + intros y Hy. apply (list_elem_of_fmap_2 Task.id) in Hy. rewrite <- E in Hy.
      apply list_elem_of_fmap_1 in Hy as (z & -> & Hz). now apply Hm.
Qed.

Lemma recomputed_app (l : list Task.t) (x : Task.t) :
  recomputed l (Task.id x) -> recomputed (l ++ [x]) (Task.id x + 1).
Proof.
  intros Hr. right. exists (Task.id x). split; [| reflexivity]. split.
  - exists x. split; [| reflexivity]. apply elem_of_app. right. left.
  - intros y Hy. apply elem_of_app in Hy as [Hy | Hy].
    + pose proof (recomputed_below _ _ Hr y Hy). lia.
    + apply list_elem_of_singleton in Hy as ->. lia.
Qed.

Lemma update_task_Forall (P : Task.t -> Prop) (task_id : Z) (title priority : option string)
    (due_date : option PyDate.date) (status : option string) (s : state) :
  (forall x t, title = Some t -> P x -> P (Task.set_title (PyStr.strip t) x)) ->
  (forall x v, priority = Some v -> P x -> P (Task.set_priority (PStr (PyStr.title v)) x)) ->
  (forall x d, due_date = Some d -> P x -> P (Task.set_due_date d x)) ->
  (forall x v, status = Some v -> P x -> P (Task.set_status (PStr (PyStr.title v)) x)) ->
  Forall P (task_list s) ->
  Forall P (task_list (snd (update_task task_id title priority due_date status s))).
Proof.
  intros Ht Hp Hd Hs Hall.
  unfold update_task, find_ref, save_to_file. run_method.
  destruct (find_pos (task_list s) task_id) as [r |]; simpl; [| exact Hall].
  destruct title, priority, due_date, status; simpl;
    repeat (destruct (decide _); simpl);
    repeat (apply Forall_alter; [| intros ? _; eauto]); exact Hall.
Qed.

Lemma res_mapM_Ok {A B : Type} (f : A -> res B) (l : list A) (l' : list B) :
  res_mapM f l = Ok l' -> Forall2 (fun a b => f a = Ok b) l l'.
Proof.
  revert l'. induction l as [| a l IH]; simpl; intros l'.
  - intros [= <-]. constructor.
  - destruct (f a) as [b |] eqn:E; simpl; [| discriminate].
    destruct (res_mapM f l) as [bs |]; simpl; [| discriminate].
    intros [= <-]. constructor; [exact E | now apply IH].
Qed.

Lemma res_mapM_Raise {A B : Type} (f : A -> res B) (l : list A) (e : exn) :
  res_mapM f l = Raise e -> exists a, a ∈ l /\ f a = Raise e.
Proof.
  induction l as [| a l IH]; simpl; [discriminate |].
  destruct (f a) as [b |] eqn:E; simpl.
  - destruct (res_mapM f l) as [bs |]; simpl; [discriminate |].
    intros [= <-]. destruct (IH eq_refl) as (a' & Ha' & E'). exists a'. split; [now right | exact E'].
  - intros [= <-]. exists a. split; [left | exact E].
Qed.

Lemma res_mapM_exists_Raise {A B : Type} (f : A -> res B) (l : list A) :
  (exists a e, a ∈ l /\ f a = Raise e) -> exists e, res_mapM f l = Raise e.
Proof.
  induction l as [| a l IH]; intros (a' & e & Ha & E).
  - inversion Ha.
  - simpl. destruct (f a) as [b |] eqn:Ea; simpl; [| eauto].
    apply elem_of_cons in Ha as [-> | Ha]; [congruence |].
    destruct IH as [e' ->]; [eauto |]. simpl. eauto.
Qed.

(** What [load_from_file] leaves: nothing, or the tasks read. *)
Lemma load_from_file_cases (s : state) :
  let s' := snd (load_from_file s) in
  filename s' = filename s /\ files s' = files s
  /\ ((task_list s' = [] /\ _next_id s' = 1)
      \/ (exists data, (files s !! filename s = Some (Items data)
                        \/ files s !! filename s = Some (ReadOnly data))
                       /\ res_mapM Task.from_dict data = Ok (task_list s'))).
Proof.
  unfold load_from_file, start_empty.
  destruct (files s !! filename s) as [[| data | | data] |] eqn:E; run_method;
    try (repeat split; left; auto).
  all: destruct (forallb json_mapping data); run_method; [| repeat split; left; auto].
  all: destruct (res_mapM Task.from_dict data) as [l | e] eqn:El; run_method;
    [| repeat split; left; auto].
  all: destruct (recompute_spec (set_task_list l s)) as (Hl & Hf & Hfs & _);
    simpl in *; split; [exact Hf |]; split; [exact Hfs |];
    right; exists data; (split; [auto |]); now rewrite Hl.
Qed.

Lemma step_recomputed (s s' : state) :
  recomputed (task_list s) (_next_id s) -> step s s' ->
  recomputed (task_list s') (_next_id s').
Proof.
  intros H Hstep. destruct Hstep.
  - destruct (decide (PyStr.title priority ∈ Task.VALID_PRIORITIES)) as [Hp | Hp].
    + destruct (add_task_valid title priority due_date s Hp) as (s' & -> & Hl & Hn & _).
      simpl. rewrite Hl, Hn. now apply (recomputed_app (task_list s) (Task.init _ _ _ _ _)).
    + now rewrite add_task_invalid.
  - destruct (update_task_ids task_id title priority due_date status s) as [Hl Hn].
    rewrite Hn. symmetry in Hl. exact (recomputed_ids _ _ _ Hl H).
  - destruct (update_task_ids task_id None None None (Some "Completed") s) as [Hl Hn].
    unfold mark_complete. rewrite Hn. symmetry in Hl. exact (recomputed_ids _ _ _ Hl H).
  - pose proof (delete_task_spec task_id s) as Hd.
    destruct (find_pos (task_list s) task_id) as [r |].
    + destruct Hd as (s' & -> & _ & Hr). exact Hr.
    + now rewrite Hd.
  - exact H.
  - exact (load_from_file_spec s).
  - exact H.
Qed.

Lemma from_dict_all_trimmed (data : list (gmap string pyval)) (l : list Task.t) :
  res_mapM Task.from_dict data = Ok l ->
  Forall (fun x => trimmed (Task.title x) /\ PyDate.date_ok (Task.due_date x)) l.
Proof.
  intros H. apply res_mapM_Ok in H.
  induction H as [| d x data l Hx _ IH]; constructor; [| exact IH].
  exact (from_dict_Ok_normal d x Hx).
Qed.

Lemma load_from_file_trimmed (s : state) : titles_trimmed (snd (load_from_file s)).
Proof.
  unfold titles_trimmed.
  destruct (load_from_file_cases s) as (_ & _ & [(-> & _) | (data & _ & H)]).
  - constructor.
  - apply from_dict_all_trimmed in H. eapply Forall_impl; [exact H |]. now intros x [? _].
Qed.

Lemma step_titles_trimmed (s s' : state) :
  titles_trimmed s -> step s s' -> titles_trimmed s'.
Proof.
  unfold titles_trimmed. intros H Hstep. destruct Hstep.
  - destruct (decide (PyStr.title priority ∈ Task.VALID_PRIORITIES)) as [Hp | Hp].
    + destruct (add_task_valid title priority due_date s Hp) as (s' & -> & Hl & _).
      simpl. rewrite Hl. apply Forall_app. split; [exact H |].
      constructor; [apply strip_idem | constructor].
    + now rewrite add_task_invalid.
  - apply update_task_Forall; try (intros [] ? _ ?; assumption); [| exact H].
    intros [] t _ _. apply strip_idem.
  - apply update_task_Forall; try (intros [] ? _ ?; assumption); [| exact H].
    intros ? ? [=].
  - pose proof (delete_task_spec task_id s) as Hd.
    destruct (find_pos (task_list s) task_id) as [r |].
    + destruct Hd as (s' & -> & Hl & _). simpl. rewrite Hl. now apply Forall_delete.
    + now rewrite Hd.
  - exact H.
  - apply load_from_file_trimmed.
  - exact H.
Qed.

Lemma reachable_invariants (s : state) :
  reachable s -> recomputed (task_list s) (_next_id s) /\ titles_trimmed s.
Proof.
  induction 1 as [filename fs | s s' _ [IH1 IH2] Hstep].
  - split; [exact (load_from_file_spec (mkState [] filename 1 fs)) |].
    apply load_from_file_trimmed.
  - split; [exact (step_recomputed s s' IH1 Hstep) |].
    exact (step_titles_trimmed s s' IH2 Hstep).
Qed.

(** X3. In every state of a manager the counter is the one
    recomputed from the collection: the largest id plus one, and 1 for
    an empty collection.  The id [add_task] gives is therefore the
    successor of the largest id in use. *)
Theorem reachable_next_id_recomputed (s : state) :
  reachable s ->
  recomputed (task_list s) (_next_id s).
Proof. intros H. exact (proj1 (reachable_invariants s H)). Qed.

Lemma reachable_next_id_recomputed_witness :
  reachable one_task_store
  /\ recomputed (task_list one_task_store) (_next_id one_task_store).
Proof.
  split; [exact reachable_one_task_store |].
  exact (reachable_next_id_recomputed one_task_store reachable_one_task_store).
Defined.

(** X4. In every state of a manager every stored title is trimmed:
    [add_task], [update_task] and [load_from_file] all strip the title
    they store. *)
Theorem reachable_titles_trimmed (s : state) :
  reachable s ->
  titles_trimmed s.
Proof. intros H. exact (proj2 (reachable_invariants s H)). Qed.

Lemma reachable_titles_trimmed_witness :
  reachable one_task_store /\ titles_trimmed one_task_store.
Proof.
  split; [exact reachable_one_task_store |].
  exact (reachable_titles_trimmed one_task_store reachable_one_task_store).
Defined.

(** ** What [save_to_file] leaves *)

Lemma written_persisted (s s0 s' : state) :
  files s0 = files s -> filename s0 = filename s ->
  files s' = written s0 -> filename s' = filename s -> task_list s' = task_list s0 ->
  persisted s s'.
Proof.
  intros Hf Hn Hw Hn' Hl. unfold persisted, writable, json_ok, saved.
  rewrite Hw, Hn', Hl. unfold written. rewrite Hf, Hn.
  destruct (opens_for_writing (files s !! filename s)); (split; [| split]).
  - intros _ ->. apply lookup_insert_eq.
  - intros _ H. apply not_true_is_false in H. rewrite H. apply lookup_insert_eq.
  - intros H. now destruct H.
  - discriminate.
  - discriminate.
  - reflexivity.
Qed.

Lemma json_mapping_to_dict (x : Task.t) :
  json_task x = true -> json_mapping (Task.to_dict x) = true.
Proof.
  unfold json_task, json_mapping, Task.to_dict. intros H.
  apply andb_prop in H as [H Hs]. apply andb_prop in H as [Hi Hp].
  apply bool_decide_eq_true.
  repeat (apply map_Forall_insert_2; [first [assumption | reflexivity] |]).
  apply map_Forall_empty.
Qed.

Lemma forallb_json_mapping_to_dict (l : list Task.t) :
  forallb json_task l = true -> forallb json_mapping (Task.to_dict <$> l) = true.
Proof.
  induction l as [| x l IH]; [reflexivity |]. rewrite fmap_cons. cbn [forallb].
  intros H. apply andb_prop in H as [Hx Hl].
  now rewrite (json_mapping_to_dict x Hx), (IH Hl).
Qed.

Lemma add_task_persisted (title priority : string) (due_date : PyDate.date)
    (s s' : state) (x : Task.t) :
  add_task title priority due_date s = (Ok x, s') -> persisted s s'.
Proof.
  unfold add_task. destruct (decide _); [| discriminate].
  unfold _generate_id, save_to_file. run_method. intros [= _ <-].
  eapply written_persisted; cycle 2; [simpl; reflexivity | reflexivity ..].
Qed.

(** ** Ids stay unique *)

Lemma own_step_step (s s' : state) : own_step s s' -> step s s'.
Proof. destruct 1; constructor. Qed.

Lemma own_step_unique_ids (s s' : state) :
  ids_below_next s -> unique_ids s -> own_step s s' -> unique_ids s'.
Proof.
  unfold unique_ids. intros Hb Hu Hstep. destruct Hstep.
  - destruct (decide (PyStr.title priority ∈ Task.VALID_PRIORITIES)) as [Hp | Hp].
    + destruct (add_task_valid title priority due_date s Hp) as (s' & -> & Hl & _).
      simpl. rewrite Hl, fmap_app. apply NoDup_app. split; [exact Hu |]. split.
      * intros i Hi Hi'. simpl in Hi'. apply list_elem_of_singleton in Hi' as ->.
        apply list_elem_of_fmap_1 in Hi as (y & Ey & Hy).
        specialize (Hb y Hy). lia.
      * simpl. apply NoDup_singleton.
    + now rewrite add_task_invalid.
  - destruct (update_task_ids task_id title priority due_date status s) as [-> _].
    exact Hu.
  - destruct (update_task_ids task_id None None None (Some "Completed") s) as [Hl _].
    unfold mark_complete. now rewrite Hl.
  - pose proof (delete_task_spec task_id s) as Hd.
    destruct (find_pos (task_list s) task_id) as [r |].
    + destruct Hd as (s' & -> & Hl & _). simpl. rewrite Hl, list_fmap_delete.
      eapply sublist_NoDup; [exact Hu | apply sublist_delete].
    + now rewrite Hd.
  - exact Hu.
Qed.

(** X5. Ids stay unique: from a state where the counter exceeds every
    id and no two tasks share an id, no sequence of calls of
    [add_task], [update_task], [mark_complete], [delete_task] and
    [save_to_file] leads to a state where two tasks share an id,
    whatever the calls return or raise. *)
Theorem unique_ids_preserved (s s' : state) :
  ids_below_next s ->
  unique_ids s ->
  rtc own_step s s' ->
  ids_below_next s' /\ unique_ids s'.
Proof.
  intros Hb Hu Hsteps. induction Hsteps as [s | s s1 s' Hstep _ IH].
  - now split.
  - apply IH.
    + exact (step_ids_below_next s s1 Hb (own_step_step s s1 Hstep)).
    + exact (own_step_unique_ids s s1 Hb Hu Hstep).
Qed.

Lemma unique_ids_preserved_witness :
  let s := init "tasks.json" ∅ in
  ids_below_next s /\ unique_ids s /\ rtc own_step s one_task_store
  /\ unique_ids one_task_store.
Proof.
  intros s.
  assert (H1 : ids_below_next s) by (intros x Hx; inversion Hx).
  assert (H2 : unique_ids s) by apply NoDup_nil_2.
  assert (H3 : rtc own_step s one_task_store)
    by (apply rtc_once; apply own_add_task).
  split; [exact H1 |]. split; [exact H2 |]. split; [exact H3 |].
  exact (proj2 (unique_ids_preserved s one_task_store H1 H2 H3)).
Defined.

(** ** Deleting *)

Lemma find_pos_lookup (l : list Task.t) (task_id : Z) (r : nat) :
  find_pos l task_id = Some r ->
  exists x, l !! r = Some x /\ Task.id x = task_id /\ find_in l task_id = Some x.
Proof. intros H. pose proof (find_pos_spec l task_id) as Hs. now rewrite H in Hs. Qed.

Lemma find_in_is_Some (l : list Task.t) (task_id : Z) (x : Task.t) :
  find_in l task_id = Some x -> exists r, find_pos l task_id = Some r /\ l !! r = Some x.
Proof.
  intros H. pose proof (find_pos_spec l task_id) as Hs.
  destruct (find_pos l task_id) as [r |].
  - destruct Hs as (y & Hy & _ & Hf). exists r. split; [reflexivity | congruence].
  - congruence.
Qed.

Lemma find_in_delete_other (l : list Task.t) (task_id other : Z) (r : nat) :
  find_pos l task_id = Some r -> other <> task_id ->
  find_in (delete r l) other = find_in l other.
Proof.
  revert r. induction l as [| y l IH]; intros r; simpl; [discriminate |].
  destruct (decide (Task.id y = task_id)) as [E | NE]; simpl.
  - intros [= <-] Ho. simpl. destruct (decide (Task.id y = other)); [congruence | reflexivity].
  - destruct (find_pos l task_id) as [r' |] eqn:Er; simpl; [| discriminate].
    intros [= <-] Ho. simpl.
    destruct (decide (Task.id y = other)); [reflexivity | now apply IH].
Qed.

Lemma find_in_delete_same (l : list Task.t) (task_id : Z) (r : nat) :
  NoDup (Task.id <$> l) -> find_pos l task_id = Some r ->
  find_in (delete r l) task_id = None.
Proof.
  revert r. induction l as [| y l IH]; intros r Hu; simpl; [discriminate |].
  apply NoDup_cons in Hu as [Hy Hu].
  destruct (decide (Task.id y = task_id)) as [E | NE]; simpl.
  - intros [= <-]. simpl. apply find_in_None. intros x Hx Ex.
    apply Hy. rewrite E, <- Ex. now apply list_elem_of_fmap_2.
  - destruct (find_pos l task_id) as [r' |] eqn:Er; simpl; [| discriminate].
    intros [= <-]. simpl.
    destruct (decide (Task.id y = task_id)); [contradiction | now apply IH].
Qed.

(** X6. [delete_task] with the id of a stored task returns [True],
    removes one task, the first with this id, and leaves the lookup of
    every other id as it was.  When ids are unique the deleted id is
    not found any more.  The file then holds the collection as saved,
    unless the path cannot be opened or an integer is not converted:
    the method returns [True] all the same. *)
Theorem delete_task_removes (s : state) (task_id : Z) (x : Task.t) :
  find_task_by_id task_id s = Some x ->
  exists (s' : state) (r : nat),
    delete_task task_id s = (Ok true, s')
    /\ task_list s !! r = Some x
    /\ task_list s' = delete r (task_list s)
    /\ List.length (task_list s) = S (List.length (task_list s'))
    /\ (forall other, other <> task_id ->
          find_task_by_id other s' = find_task_by_id other s)
    /\ (unique_ids s -> find_task_by_id task_id s' = None)
    /\ persisted s s'.
Proof.
  unfold find_task_by_id. intros Hx.
  destruct (find_in_is_Some _ _ _ Hx) as (r & Hr & Hl).
  pose proof (delete_task_spec task_id s) as Hd. rewrite Hr in Hd.
  destruct Hd as (s' & E & Hl' & _). exists s', r.
  split; [exact E |]. split; [exact Hl |]. split; [exact Hl' |]. rewrite Hl'.
  split; [| split; [| split]].
  - rewrite length_delete by eauto.
    apply lookup_lt_Some in Hl. lia.
  - intros other Ho. now apply (find_in_delete_other _ task_id).
  - intros Hu. now apply find_in_delete_same.
  - revert E. unfold delete_task, find_ref, save_to_file. run_method. rewrite Hr. simpl.
    intros [= <-].
    apply (written_persisted s (set_task_list (delete r (task_list s)) s));
      destruct (delete r (task_list s)); reflexivity.
Qed.

Lemma delete_task_removes_witness :
  exists x s',
    find_task_by_id 1 one_task_store = Some x
    /\ delete_task 1 one_task_store = (Ok true, s')
    /\ task_list s' = [].
Proof.
  assert (H : find_task_by_id 1 one_task_store
              = Some (Task.mk 1 "Write report" (PStr "High") 739252 (PStr "Pending")))
    by reflexivity.
  destruct (delete_task_removes one_task_store 1 _ H) as (s' & r & E & _).
  eexists _, _. split; [exact H |]. split; reflexivity.
Defined.

(** ** Updating *)

(** X7. An id that no task has is no error: [update_task] (whatever
    fields are given, valid or not), [mark_complete] and [delete_task]
    return [False], raise nothing and leave the state, file included,
    as it was. *)
Theorem missing_id_returns_false (s : state) (task_id : Z)
    (title priority : option string) (due_date : option PyDate.date)
    (status : option string) :
  find_task_by_id task_id s = None ->
  update_task task_id title priority due_date status s = (Ok false, s)
  /\ mark_complete task_id s = (Ok false, s)
  /\ delete_task task_id s = (Ok false, s).
Proof.
  unfold find_task_by_id. intros H.
  assert (Hr : find_pos (task_list s) task_id = None).
  { pose proof (find_pos_spec (task_list s) task_id) as Hs.
    destruct (find_pos (task_list s) task_id) as [r |]; [| reflexivity].
    destruct Hs as (x & _ & _ & Hx). congruence. }
  unfold mark_complete, update_task, delete_task, find_ref. run_method.
  rewrite Hr. auto.
Qed.

Lemma missing_id_returns_false_witness :
  find_task_by_id 5 one_task_store = None
  /\ update_task 5 (Some "x") (Some "urgent") None None one_task_store
     = (Ok false, one_task_store).
Proof.
  assert (H : find_task_by_id 5 one_task_store = None) by reflexivity.
  split; [exact H |].
  exact (proj1 (missing_id_returns_false one_task_store 5 (Some "x") (Some "urgent")
                  None None H)).
Defined.

Lemma updated_id (title priority : option string) (due_date : option PyDate.date)
    (status : option string) (x : Task.t) :
  Task.id (updated title priority due_date status x) = Task.id x.
Proof. reflexivity. Qed.

Lemma find_in_alter (f : Task.t -> Task.t) (l : list Task.t) (task_id other : Z) (r : nat) :
  (forall x, Task.id (f x) = Task.id x) ->
  find_pos l task_id = Some r ->
  find_in (alter f r l) other
  = if decide (other = task_id) then f <$> find_in l other else find_in l other.
Proof.
  intros Hf. revert r. induction l as [| y l IH]; intros r; simpl; [discriminate |].
  destruct (decide (Task.id y = task_id)) as [E | NE]; simpl.
  - intros [= <-]. simpl. rewrite Hf.
    destruct (decide (Task.id y = other)), (decide (other = task_id));
      try reflexivity; congruence.
  - destruct (find_pos l task_id) as [r' |] eqn:Er; simpl; [| discriminate].
    intros [= <-]. simpl. change (list_alter f r' l) with (alter f r' l).
    rewrite (IH r' eq_refl).
    destruct (decide (Task.id y = other)), (decide (other = task_id));
      try reflexivity; congruence.
Qed.

(** The state an accepted update leaves. *)
Lemma update_task_accepted (s : state) (task_id : Z) (r : nat)
    (title priority : option string) (due_date : option PyDate.date)
    (status : option string) :
  find_pos (task_list s) task_id = Some r ->
  accepted Task.VALID_PRIORITIES priority ->
  accepted Task.VALID_STATUSES status ->
  exists s',
    update_task task_id title priority due_date status s = (Ok true, s')
    /\ task_list s' = alter (updated title priority due_date status) r (task_list s)
    /\ _next_id s' = _next_id s /\ filename s' = filename s
    /\ persisted s s'.
Proof.
  intros Hr Hp Hs. unfold update_task, find_ref, save_to_file. run_method.
  rewrite Hr. simpl.
  destruct title as [t |], priority as [p |], due_date as [d |], status as [st |]; simpl;
    repeat match goal with
           | |- context [decide (PyStr.title ?v ∈ ?valid)] =>
               destruct (decide (PyStr.title v ∈ valid)) as [_ | N];
               [simpl | exfalso; apply N; first [now apply Hp | now apply Hs]]
           end;
    (eexists; split; [reflexivity |]; simpl;
     split; [| split; [reflexivity | split; [reflexivity |
                eapply written_persisted; cycle 2;
                [simpl; reflexivity | reflexivity ..]]]];
     rewrite ?list_alter_alter_eq;
     first [ apply list_alter_ext; [intros [] _; reflexivity | reflexivity]
           | symmetry; apply list_alter_id; intros []; reflexivity ]).
Qed.

(** X8. [update_task] with the id of a stored task and with fields
    it accepts returns [True].  The task then found by this id has the
    given fields (the title stripped, the priority and the status in
    title case) and keeps the others, its id included; the lookup of
    every other id, the number of tasks and the counter are as before.
    The file then holds the collection as saved, unless the path
    cannot be opened or an integer is not converted: the method
    returns [True] all the same. *)
Theorem update_task_sets_given_fields (s : state) (task_id : Z) (x : Task.t)
    (title priority : option string) (due_date : option PyDate.date)
    (status : option string) :
  find_task_by_id task_id s = Some x ->
  accepted Task.VALID_PRIORITIES priority ->
  accepted Task.VALID_STATUSES status ->
  exists s',
    update_task task_id title priority due_date status s = (Ok true, s')
    /\ find_task_by_id task_id s' = Some (updated title priority due_date status x)
    /\ (forall other, other <> task_id ->
          find_task_by_id other s' = find_task_by_id other s)
    /\ List.length (task_list s') = List.length (task_list s)
    /\ _next_id s' = _next_id s
    /\ persisted s s'.
Proof.
  unfold find_task_by_id. intros Hx Hp Hs.
  destruct (find_in_is_Some _ _ _ Hx) as (r & Hr & Hl).
  destruct (update_task_accepted s task_id r title priority due_date status Hr Hp Hs)
    as (s' & E & Hl' & Hn & _ & Hsaved).
  exists s'. split; [exact E |]. rewrite Hl'.
  split; [| split; [| split; [apply length_alter | split; [exact Hn | exact Hsaved]]]].
  - rewrite (find_in_alter _ _ task_id task_id r) by (auto using updated_id).
    destruct (decide (task_id = task_id)); [| congruence]. now rewrite Hx.
  - intros other Ho.
    rewrite (find_in_alter _ _ task_id other r) by (auto using updated_id).
    destruct (decide (other = task_id)); [contradiction | reflexivity].
Qed.

Lemma update_task_sets_given_fields_witness :
  let x := Task.mk 1 "Write report" (PStr "High") 739252 (PStr "Pending") in
  find_task_by_id 1 one_task_store = Some x
  /\ accepted Task.VALID_PRIORITIES (Some "lOW")
  /\ accepted Task.VALID_STATUSES None
  /\ exists s',
       update_task 1 (Some " Draft ") (Some "lOW") None None one_task_store = (Ok true, s')
       /\ find_task_by_id 1 s'
          = Some (Task.mk 1 "Draft" (PStr "Low") 739252 (PStr "Pending")).
Proof.
  intros x.
  assert (H1 : find_task_by_id 1 one_task_store = Some x) by reflexivity.
  assert (H2 : accepted Task.VALID_PRIORITIES (Some "lOW"))
    by (intros p [= <-]; vm_compute; left).
  assert (H3 : accepted Task.VALID_STATUSES None) by (intros p [=]).
  split; [exact H1 |]. split; [exact H2 |]. split; [exact H3 |].
  destruct (update_task_sets_given_fields one_task_store 1 x (Some " Draft ") (Some "lOW")
              None None H1 H2 H3) as (s' & E & Hf & _).
  exists s'. split; [exact E | exact Hf].
Defined.

Lemma find_pos_alter (f : Task.t -> Task.t) (l : list Task.t) (task_id : Z) (r : nat) :
  (forall x, Task.id (f x) = Task.id x) ->
  find_pos (alter f r l) task_id = find_pos l task_id.
Proof.
  intros Hf. revert r. induction l as [| y l IH]; intros [| r]; simpl; try reflexivity.
  - now rewrite Hf.
  - change (list_alter f r l) with (alter f r l). now rewrite IH.
Qed.

(** X9. [mark_complete] with the id of a stored task returns [True]
    and sets the status of the task found by this id to Completed; the
    other fields of the task and the lookup of every other id are as
    before.  Marking again changes nothing in the collection. *)
Theorem mark_complete_sets_status (s : state) (task_id : Z) (x : Task.t) :
  find_task_by_id task_id s = Some x ->
  exists s',
    mark_complete task_id s = (Ok true, s')
    /\ find_task_by_id task_id s' = Some (Task.set_status (PStr "Completed") x)
    /\ (forall other, other <> task_id ->
          find_task_by_id other s' = find_task_by_id other s)
    /\ task_list (snd (mark_complete task_id s')) = task_list s'
    /\ fst (mark_complete task_id s') = Ok true.
Proof.
  unfold find_task_by_id, mark_complete. intros Hx.
  destruct (find_in_is_Some _ _ _ Hx) as (r & Hr & Hl).
  assert (Hp : accepted Task.VALID_PRIORITIES None) by (intros p [=]).
  assert (Hs : accepted Task.VALID_STATUSES (Some "Completed"))
    by (intros p [= <-]; right; left).
  set (U := updated None None None (Some "Completed")).
  assert (HU : forall y, U y = Task.set_status (PStr "Completed") y)
    by (intros []; reflexivity).
  destruct (update_task_accepted s task_id r None None None (Some "Completed") Hr Hp Hs)
    as (s' & E & Hl' & _).
  fold U in Hl'.
  assert (Hr' : find_pos (task_list s') task_id = Some r).
  { rewrite Hl', find_pos_alter; [exact Hr | intros []; reflexivity]. }
  destruct (update_task_accepted s' task_id r None None None (Some "Completed") Hr' Hp Hs)
    as (s'' & E' & Hl'' & _).
  fold U in Hl''.
  exists s'. split; [exact E |]. rewrite E'. simpl. rewrite Hl'', Hl'.
  split; [| split; [| split; [| reflexivity]]].
  - rewrite (find_in_alter U _ task_id task_id r (fun y => eq_refl) Hr).
    destruct (decide (task_id = task_id)); [| congruence].
    rewrite Hx. simpl. f_equal; apply HU.
  - intros other Ho.
    rewrite (find_in_alter U _ task_id other r (fun y => eq_refl) Hr).
    destruct (decide (other = task_id)); [contradiction | reflexivity].
  - rewrite list_alter_alter_eq. apply list_alter_ext; [| reflexivity].
    intros [] _. reflexivity.
Qed.

Lemma mark_complete_sets_status_witness :
  let x := Task.mk 1 "Write report" (PStr "High") 739252 (PStr "Pending") in
  find_task_by_id 1 one_task_store = Some x
  /\ exists s',
       mark_complete 1 one_task_store = (Ok true, s')
       /\ find_task_by_id 1 s'
          = Some (Task.mk 1 "Write report" (PStr "High") 739252 (PStr "Completed")).
Proof.
  intros x.
  assert (H : find_task_by_id 1 one_task_store = Some x) by reflexivity.
  split; [exact H |].
  destruct (mark_complete_sets_status one_task_store 1 x H) as (s' & E & Hf & _).
  exists s'. split; [exact E | exact Hf].
Defined.

(** X10. When [update_task] raises, the exception is [ValueError],
    the task exists and the priority or the status given is not
    accepted.  The call has then written no file and has changed
    neither the counter, nor the number of tasks, nor any id. *)
Theorem update_task_failure (s s' : state) (e : exn) (task_id : Z)
    (title priority : option string) (due_date : option PyDate.date)
    (status : option string) :
  update_task task_id title priority due_date status s = (Raise e, s') ->
  e = ValueError
  /\ is_Some (find_task_by_id task_id s)
  /\ ~ (accepted Task.VALID_PRIORITIES priority /\ accepted Task.VALID_STATUSES status)
  /\ files s' = files s /\ filename s' = filename s /\ _next_id s' = _next_id s
  /\ Task.id <$> task_list s' = Task.id <$> task_list s.
Proof.
  intros E.
  pose proof (update_task_ids task_id title priority due_date status s) as [Hids Hn].
  rewrite E in Hids, Hn. simpl in Hids, Hn.
  assert (Hfound : is_Some (find_task_by_id task_id s)
                   /\ exists r, find_pos (task_list s) task_id = Some r).
  { unfold find_task_by_id. destruct (find_pos (task_list s) task_id) as [r |] eqn:Er.
    - destruct (find_pos_lookup _ _ _ Er) as (x & _ & _ & Hx). split; eauto.
    - revert E. unfold update_task, find_ref. run_method. rewrite Er. discriminate. }
  destruct Hfound as [Hfound [r Hr]].
  revert E. unfold update_task, find_ref, save_to_file. run_method. rewrite Hr. simpl.
  destruct title as [t |], priority as [p |], due_date as [d |], status as [st |]; simpl;
    repeat match goal with
           | |- context [decide (PyStr.title ?v ∈ ?valid)] =>
               destruct (decide (PyStr.title v ∈ valid)) as [_ | N]; simpl
           end;
    intros Heq; try discriminate Heq; injection Heq as <- <-; simpl;
    (split; [reflexivity |]; split; [exact Hfound |];
     split; [intros [Hp Hs]; apply N; first [now apply Hp | now apply Hs] |];
     repeat split; exact Hids).
Qed.

Lemma update_task_failure_witness :
  exists s',
    update_task 1 None None (Some 739253) (Some "done") one_task_store
    = (Raise ValueError, s')
    /\ files s' = files one_task_store.
Proof.
  assert (E : update_task 1 None None (Some 739253) (Some "done") one_task_store
              = (Raise ValueError,
                 set_task_list
                   (alter (Task.set_due_date 739253) 0%nat (task_list one_task_store))
                   one_task_store)) by (vm_compute; reflexivity).
  eexists. split; [exact E |].
  exact (proj1 (proj2 (proj2 (proj2 (update_task_failure _ _ _ _ _ _ _ _ E))))).
Defined.

(** ** Saving and loading *)

Lemma res_mapM_to_dict (l : list Task.t) :
  Forall (fun x => trimmed (Task.title x) /\ four_digit_year (Task.due_date x)) l ->
  res_mapM Task.from_dict (Task.to_dict <$> l) = Ok l.
Proof.
  induction 1 as [| x l Hx _ IH]; [reflexivity |].
  rewrite fmap_cons. cbn [res_mapM].
  rewrite (from_dict_of_to_dict x Hx), IH. reflexivity.
Qed.

Lemma Forall_trimmed_dates (s : state) :
  titles_trimmed s -> dates_ok s ->
  Forall (fun x => trimmed (Task.title x) /\ four_digit_year (Task.due_date x))
         (task_list s).
Proof. unfold titles_trimmed, dates_ok. intros H1 H2. now apply Forall_and. Qed.

(** Loading a file that holds the serialized list [l]. *)
Lemma load_saved_list (s : state) (l : list Task.t) :
  files s !! filename s = Some (Items (Task.to_dict <$> l)) ->
  forallb json_task l = true ->
  Forall (fun x => trimmed (Task.title x) /\ four_digit_year (Task.due_date x)) l ->
  exists n,
    load_from_file s = (Ok tt, mkState l (filename s) n (files s))
    /\ recomputed l n.
Proof.
  intros Hf Hj Hl. unfold load_from_file.
  rewrite Hf, (forallb_json_mapping_to_dict l Hj), (res_mapM_to_dict l Hl).
  run_method.
  destruct (recompute_spec (set_task_list l s)) as (_ & _ & _ & Hr). revert Hr.
  unfold _recompute_next_id. run_method.
  destruct l as [| first rest]; simpl; intros Hr; eexists; split; try reflexivity; exact Hr.
Qed.

(** X11. [save_to_file] followed by [load_from_file] gives the
    collection back, task by task and in the same order, when the path
    of the file can be opened, the integers of the collection are of
    those [json] converts, the titles are trimmed and the years of the
    due dates have four digits; the counter is then the one recomputed
    from the collection. *)
Theorem save_then_load (s : state) :
  writable s ->
  json_ok s ->
  titles_trimmed s ->
  dates_ok s ->
  let saved_state := snd (save_to_file s) in
  let s' := snd (load_from_file saved_state) in
  fst (load_from_file saved_state) = Ok tt
  /\ task_list s' = task_list s
  /\ recomputed (task_list s) (_next_id s')
  /\ files s' = files saved_state
  /\ files s' !! filename s = Some (Items (Task.to_dict <$> task_list s)).
Proof.
  intros Hw Hj Ht Hd saved_state s'.
  assert (Hp : persisted s saved_state)
    by (apply (written_persisted s s); reflexivity).
  assert (Hf : files saved_state !! filename saved_state
               = Some (Items (Task.to_dict <$> task_list s)))
    by (apply (proj1 Hp); assumption).
  destruct (load_saved_list saved_state (task_list s) Hf Hj (Forall_trimmed_dates s Ht Hd))
    as (n & E & Hr).
  subst s'. rewrite E. simpl. repeat split; try assumption.
Qed.

Lemma save_then_load_witness :
  writable one_task_store /\ json_ok one_task_store
  /\ titles_trimmed one_task_store /\ dates_ok one_task_store
  /\ task_list (snd (load_from_file (snd (save_to_file one_task_store))))
     = task_list one_task_store.
Proof.
  assert (H0 : writable one_task_store) by (vm_compute; reflexivity).
  assert (Hj : json_ok one_task_store) by (vm_compute; reflexivity).
  assert (H1 : titles_trimmed one_task_store) by (repeat constructor).
  assert (H2 : dates_ok one_task_store)
    by (repeat constructor; unfold PyDate.MAXORDINAL; simpl; lia).
  split; [exact H0 |]. split; [exact Hj |]. split; [exact H1 |]. split; [exact H2 |].
  exact (proj1 (proj2 (save_then_load one_task_store H0 Hj H1 H2))).
Defined.

(** X12. A manager constructed on the files a manager has left is
    that manager: in every state of a manager whose file holds the
    collection as saved, whose integers are of those [json] converts
    and whose due dates have years of four digits,
    [TaskManager(filename)] yields the same collection, the same
    counter and the same files. *)
Theorem restart_recovers (s : state) :
  reachable s ->
  json_ok s ->
  dates_ok s ->
  saved s ->
  init (filename s) (files s) = s.
Proof.
  intros Hs Hj Hd Hsaved. destruct (reachable_invariants s Hs) as [Hr Ht].
  unfold init.
  destruct (load_saved_list (mkState [] (filename s) 1 (files s)) (task_list s)
              Hsaved Hj (Forall_trimmed_dates s Ht Hd)) as (n & E & Hr').
  rewrite E. simpl. rewrite (recomputed_unique _ _ _ Hr' Hr). now destruct s.
Qed.

Lemma restart_recovers_witness :
  reachable one_task_store /\ json_ok one_task_store /\ dates_ok one_task_store
  /\ saved one_task_store
  /\ init "tasks.json" (files one_task_store) = one_task_store.
Proof.
  assert (Hj : json_ok one_task_store) by (vm_compute; reflexivity).
  assert (H2 : dates_ok one_task_store)
    by (repeat constructor; unfold PyDate.MAXORDINAL; simpl; lia).
  assert (H3 : saved one_task_store) by (vm_compute; reflexivity).
  split; [exact reachable_one_task_store |]. split; [exact Hj |].
  split; [exact H2 |]. split; [exact H3 |].
  exact (restart_recovers one_task_store reachable_one_task_store Hj H2 H3).
Defined.

(** Without the four digits the restart loses the collection: the
    date prompt reads 0999-12-31, the task added with this date is
    saved with the date 999-12-31, and a manager constructed on the
    file starts empty. *)
Lemma restart_loses_short_year :
  let s := snd (add_task "Old" "Low" 364877 (init "tasks.json" ∅)) in
  Cli.input_date ["0999-12-31"] = Cli.Got 364877 []
  /\ reachable s /\ saved s /\ List.length (task_list s) = 1%nat
  /\ task_list (init "tasks.json" (files s)) = [].
Proof.
  intros s. split; [reflexivity |]. split.
  - eapply reachable_step; [apply reachable_init | apply step_add_task].
  - split; [vm_compute; reflexivity |]. split; vm_compute; reflexivity.
Qed.

(** X13. [load_from_file] starts from an empty store, with the
    counter at 1, when the file is missing, when it is not JSON, and
    when [from_dict] rejects one of its entries, whatever the other
    entries are.  It raises nothing and leaves the file as it is. *)
Theorem load_from_file_starts_empty (s : state) :
  (files s !! filename s = None
   \/ files s !! filename s = Some Corrupt
   \/ exists data d e,
        files s !! filename s = Some (Items data) /\ d ∈ data
        /\ Task.from_dict d = Raise e) ->
  load_from_file s = (Ok tt, mkState [] (filename s) 1 (files s)).
Proof.
  unfold load_from_file, start_empty.
  intros [-> | [-> | (data & d & e & -> & Hd & He)]]; try reflexivity.
  destruct (res_mapM_exists_Raise Task.from_dict data) as [e' ->]; [eauto |].
  destruct (forallb json_mapping data); reflexivity.
Qed.

Lemma load_from_file_starts_empty_witness :
  let good := Task.to_dict (Task.mk 1 "a" (PStr "Low") 739252 (PStr "Pending")) in
  let bad := <["due_date" := PStr "2025-02-30"]> good in
  let s := mkState [] "tasks.json" 1 (<["tasks.json" := Items [good; bad]]> ∅) in
  Task.from_dict bad = Raise ValueError
  /\ load_from_file s = (Ok tt, s).
Proof.
  intros good bad s.
  assert (Hbad : Task.from_dict bad = Raise ValueError) by (vm_compute; reflexivity).
  split; [exact Hbad |].
  apply (load_from_file_starts_empty s). right. right.
  exists [good; bad], bad, ValueError.
  split; [reflexivity |]. split; [right; left | exact Hbad].
Defined.

(** ** More on filtering *)

Lemma strptime_Ok_not_keyword (v : string) (d : PyDate.date) :
  PyDate.strptime v = Ok d ->
  PyStr.truthy v = true /\ PyStr.lower v <> "today" /\ PyStr.lower v <> "week".
Proof.
  unfold PyDate.strptime, PyDate.parse_year.
  destruct v as [| a v]; [discriminate |].
  destruct v as [| b [| c [| d' v]]]; try discriminate.
  destruct (PyStr.is_digit a) eqn:Ea; simpl; [| discriminate].
  intros _. split; [reflexivity |].
  split; intros [= E _]; revert Ea E; each_ascii a; discriminate.
Qed.

(** X14. [filter_tasks] returns tasks of the collection in their
    order and nothing else.  It returns the empty list for a [by] that
    is neither status nor due_date and for a value that is absent or
    empty.  The only exception it raises is [OverflowError], for the
    week of a day whose seventh following day is no date of the
    library. *)
Theorem filter_tasks_outcome (by_ : string) (value : option string)
    (today : PyDate.date) (s : state) :
  (forall r, filter_tasks by_ value today s = Ok r -> r `sublist_of` task_list s)
  /\ (PyStr.lower by_ <> "status" -> PyStr.lower by_ <> "due_date" ->
      filter_tasks by_ value today s = Ok [])
  /\ (value = None \/ value = Some "" -> filter_tasks by_ value today s = Ok [])
  /\ (forall e, filter_tasks by_ value today s = Raise e ->
        e = OverflowError /\ PyStr.lower by_ = "due_date"
        /\ (exists v, value = Some v /\ PyStr.lower v = "week")
        /\ ~ PyDate.date_ok (today + 7)).
Proof.
  unfold filter_tasks.
  split; [| split; [| split]].
  - intros r.
    repeat match goal with
           | |- context [decide ?P] => destruct (decide P)
           | |- context [match value with _ => _ end] => destruct value as [v |]
           | |- context [negb (PyStr.truthy ?v)] => destruct (PyStr.truthy v)
           | |- context [PyDate.add_days ?a ?b] => destruct (PyDate.add_days a b)
           | |- context [PyDate.strptime ?v] => destruct (PyDate.strptime v)
           end; simpl; intros [= <-]; first [apply sublist_filter | apply sublist_nil_l].
  - intros H1 H2. destruct (decide _); [contradiction |].
    destruct (decide _); [contradiction | reflexivity].
  - intros [-> | ->]; repeat (destruct (decide _)); reflexivity.
  - intros e.
    destruct (decide (PyStr.lower by_ = "status")).
    { destruct value as [v |]; [destruct (PyStr.truthy v) |]; discriminate. }
    destruct (decide (PyStr.lower by_ = "due_date")) as [Eby |]; [| discriminate].
    destruct value as [v |]; [| discriminate].
    destruct (PyStr.truthy v); [| discriminate]. simpl.
    destruct (decide (PyStr.lower v = "today")); [discriminate |].
    destruct (decide (PyStr.lower v = "week")) as [Ev |].
    + unfold PyDate.add_days, PyDate.date_ok.
      destruct ((0 <? today + 7) && (today + 7 <=? PyDate.MAXORDINAL)) eqn:Eo;
        simpl; [discriminate |].
      intros [= <-]. repeat split; eauto.
      intros Hok. apply andb_false_iff in Eo as [Eo | Eo]; lia.
    + destruct (PyDate.strptime v); discriminate.
Qed.

(** X15. [filter_tasks("due_date", v)], for [v] the word today in
    any case, returns the tasks due on the current date: exactly
    those, in the order of the collection. *)
Theorem filter_tasks_today (s : state) (today : PyDate.date) (v : string) :
  same_modulo_case v "today" ->
  let r := filter (fun x => Task.due_date x = today) (task_list s) in
  filter_tasks "due_date" (Some v) today s = Ok r
  /\ (forall x, x ∈ r <-> x ∈ task_list s /\ Task.due_date x = today).
Proof.
  intros Hv r. unfold same_modulo_case in Hv. simpl in Hv. split.
  - unfold filter_tasks. simpl.
    assert (PyStr.truthy v = true) as -> by (destruct v; [discriminate | reflexivity]).
    rewrite Hv. reflexivity.
  - intros x. subst r. rewrite list_elem_of_filter. tauto.
Qed.

Lemma filter_tasks_today_witness :
  same_modulo_case "Today" "today"
  /\ filter_tasks "due_date" (Some "Today") 739252 one_task_store
     = Ok (task_list one_task_store).
Proof.
  assert (H : same_modulo_case "Today" "today") by reflexivity.
  split; [exact H |].
  exact (proj1 (filter_tasks_today one_task_store 739252 "Today" H)).
Defined.

(** X16. [filter_tasks("due_date", v)], for a text [v] that
    [strptime] reads as a date, returns the tasks due on that date,
    whatever the current date is; so it does for the text [to_dict]
    writes for a date whose year has four digits.  A text that is
    neither a keyword nor a date gives the empty list, not an error. *)
Theorem filter_tasks_specific_date (s : state) (today d : PyDate.date) (v : string) :
  PyDate.strptime v = Ok d ->
  filter_tasks "due_date" (Some v) today s
  = Ok (filter (fun x => Task.due_date x = d) (task_list s))
  /\ (four_digit_year d ->
      filter_tasks "due_date" (Some (PyDate.strftime d)) today s
      = Ok (filter (fun x => Task.due_date x = d) (task_list s)))
  /\ (forall w e, PyStr.lower w <> "today" -> PyStr.lower w <> "week" ->
        PyDate.strptime w = Raise e ->
        filter_tasks "due_date" (Some w) today s = Ok []).
Proof.
  intros Hv.
  assert (Hgen : forall u, PyDate.strptime u = Ok d ->
            filter_tasks "due_date" (Some u) today s
            = Ok (filter (fun x => Task.due_date x = d) (task_list s))).
  { intros u Hu. destruct (strptime_Ok_not_keyword u d Hu) as (Ht & H1 & H2).
    unfold filter_tasks. simpl. rewrite Ht. simpl.
    destruct (decide _); [contradiction |]. destruct (decide _); [contradiction |].
    now rewrite Hu. }
  split; [now apply Hgen |]. split.
  - intros H4. apply Hgen. now apply strptime_strftime.
  - intros w e H1 H2 Hw. unfold filter_tasks. simpl.
    destruct (PyStr.truthy w); [| reflexivity]. simpl.
    destruct (decide _); [contradiction |]. destruct (decide _); [contradiction |].
    now rewrite Hw.
Qed.

Lemma filter_tasks_specific_date_witness :
  PyDate.strptime "2025-1-1" = Ok 739252
  /\ filter_tasks "due_date" (Some "2025-1-1") 1 one_task_store
     = Ok (task_list one_task_store).
Proof.
  assert (H : PyDate.strptime "2025-1-1" = Ok 739252) by reflexivity.
  split; [exact H |].
  exact (proj1 (filter_tasks_specific_date one_task_store 1 739252 "2025-1-1" H)).
Defined.

(** ** More on the sorted view *)

Lemma StronglySorted_filter (P : Task.t -> Prop) `{!forall x, Decision (P x)}
    (l : list Task.t) :
  StronglySorted task_le l -> StronglySorted task_le (filter P l).
Proof.
  induction 1 as [| x l Hl IH Hx]; [constructor |].
  rewrite filter_cons. destruct (decide (P x)); [| exact IH].
  constructor; [exact IH |].
  rewrite Forall_forall in *. intros y Hy. apply Hx.
  apply list_elem_of_filter in Hy. tauto.
Qed.

Lemma filter_swap (P Q : Task.t -> Prop) `{!forall x, Decision (P x)}
    `{!forall x, Decision (Q x)} (l : list Task.t) :
  filter P (filter Q l) = filter Q (filter P l).
Proof.
  induction l as [| x l IH]; [reflexivity |].
  rewrite !(filter_cons _ x).
  destruct (decide (P x)), (decide (Q x)); rewrite ?(filter_cons _ x);
    repeat case_decide; try contradiction; now rewrite IH.
Qed.

(** X17. Sorting commutes with filtering: the table of a filtered
    list is the table of the whole collection without the rows of the
    tasks the filter leaves out, the remaining rows in the same order. *)
Theorem view_of_filtered (P : Task.t -> Prop) `{!forall x, Decision (P x)} (s : state) :
  view_tasks (Some (filter P (task_list s))) s = filter P (view_tasks None s).
Proof.
  rewrite !view_tasks_sorted. simpl. symmetry.
  apply stable_sorted_unique.
  - apply StronglySorted_filter, sorted_sorted.
  - apply sorted_sorted.
  - intros k. rewrite sorted_stable.
    rewrite !(filter_swap (fun y => sort_key y = k) P).
    now rewrite sorted_stable.
Qed.

Lemma filter_key_NoDup (k : Z * Z * Z) (l : list Task.t) :
  NoDup (Task.id <$> l) ->
  (List.length (filter (fun y => sort_key y = k) l) <= 1)%nat.
Proof.
  induction l as [| x l IH]; intros Hu; [simpl; lia |].
  rewrite fmap_cons in Hu. apply NoDup_cons in Hu as [Hx Hu].
  rewrite filter_cons. destruct (decide (sort_key x = k)) as [E | _]; [| now apply IH].
  assert (filter (fun y => sort_key y = k) l = []) as ->; [| simpl; lia].
  destruct (filter (fun y => sort_key y = k) l) as [| y l'] eqn:Ef; [reflexivity |].
  exfalso. apply Hx.
  assert (Hy : y ∈ filter (fun y => sort_key y = k) l) by (rewrite Ef; left).
  apply list_elem_of_filter in Hy as [Ey Hy].
  replace (Task.id x) with (Task.id y); [now apply list_elem_of_fmap_2 |].
  rewrite <- E in Ey. unfold sort_key in Ey. congruence.
Qed.

(** X18. When no two tasks share an id, the rows of [view_tasks] do
    not depend on the order of the list it is given: two lists with
    the same tasks give the same rows.  Sorting rows already sorted
    changes nothing. *)
Theorem view_order_independent (l l' : list Task.t) (s : state) :
  NoDup (Task.id <$> l) ->
  l ≡ₚ l' ->
  view_tasks (Some l) s = view_tasks (Some l') s
  /\ view_tasks (Some (view_tasks (Some l) s)) s = view_tasks (Some l) s.
Proof.
  intros Hu Hp. rewrite !view_tasks_sorted. simpl. split.
  - apply stable_sorted_unique; try apply sorted_sorted.
    intros k. rewrite !sorted_stable.
    pose proof (filter_key_NoDup k l Hu) as Hlen.
    assert (Hpk : filter (fun y => sort_key y = k) l ≡ₚ filter (fun y => sort_key y = k) l')
      by now rewrite Hp.
    destruct (filter (fun y => sort_key y = k) l) as [| x [| y r]]; simpl in Hlen.
    + symmetry in Hpk. apply Permutation_nil_r in Hpk. now rewrite Hpk.
    + symmetry in Hpk. apply Permutation_singleton_r in Hpk. now rewrite Hpk.
    + lia.
  - symmetry. apply stable_sorted_unique; try apply sorted_sorted.
    intros k. now rewrite !sorted_stable.
Qed.

Lemma view_order_independent_witness :
  let a := example_A "a" (PStr "Pending") in
  let b := example_B "b" (PStr "Pending") in
  NoDup (Task.id <$> [a; b]) /\ [a; b] ≡ₚ [b; a]
  /\ view_tasks (Some [a; b]) one_task_store = view_tasks (Some [b; a]) one_task_store.
Proof.
  intros a b.
  assert (H1 : NoDup (Task.id <$> [a; b])).
  { simpl. apply NoDup_cons. split; [| apply NoDup_singleton].
    intros H. apply list_elem_of_singleton in H. discriminate. }
  assert (H2 : [a; b] ≡ₚ [b; a]) by apply Permutation_swap.
  split; [exact H1 |]. split; [exact H2 |].
  exact (proj1 (view_order_independent [a; b] [b; a] one_task_store H1 H2)).
Defined.

(** ** The helpers of the command line *)

Lemma strip_blank_or_nonblank (s : string) :
  PyStr.truthy (PyStr.strip s) = false -> PyStr.strip s = "".
Proof. destruct (PyStr.strip s); [reflexivity | discriminate]. Qed.

Lemma rstrip_no_space (s : string) :
  Forall (fun c => PyStr.is_space c = false) (list_ascii_of_string s) ->
  PyStr.rstrip s = s.
Proof.
  induction s as [| c s IH]; simpl; [reflexivity |].
  intros H. apply Forall_cons in H as [Hc Hs]. rewrite (IH Hs).
  destruct s; [now rewrite Hc | reflexivity].
Qed.

Lemma strip_no_space (s : string) :
  Forall (fun c => PyStr.is_space c = false) (list_ascii_of_string s) ->
  PyStr.strip s = s.
Proof.
  intros H. unfold PyStr.strip.
  assert (PyStr.lstrip s = s) as ->; [| now apply rstrip_no_space].
  destruct s as [| c s]; [reflexivity |]. simpl in *.
  apply Forall_cons in H as [-> _]. reflexivity.
Qed.

Lemma digit_char_no_space (k : Z) :
  0 <= k <= 9 -> PyStr.is_space (PyDate.digit_char k) = false.
Proof.
  intros Hk.
  assert (k = 0 \/ k = 1 \/ k = 2 \/ k = 3 \/ k = 4 \/ k = 5 \/ k = 6 \/ k = 7
          \/ k = 8 \/ k = 9) as H by lia.
  repeat (destruct H as [-> | H]; [reflexivity |]). subst. reflexivity.
Qed.

(** The text [strftime] writes has no white space. *)
Lemma strip_strftime (d : PyDate.date) :
  PyDate.date_ok d -> PyStr.strip (PyDate.strftime d) = PyDate.strftime d.
Proof.
  intros Hd.
  destruct (ord2ymd_spec d Hd) as (y & m & dd & E & Hy & Hm & Hdd & _).
  unfold PyDate.MINYEAR, PyDate.MAXYEAR in Hy.
  pose proof (days_in_month_le_31 y m) as H31.
  apply strip_no_space. unfold PyDate.strftime, PyDate.year_text. rewrite E.
  destruct (Z.ltb_spec y 10);
    [| destruct (Z.ltb_spec y 100); [| destruct (Z.ltb_spec y 1000)]]; simpl;
  repeat (apply Forall_cons; split;
          [first [reflexivity
                 | apply digit_char_no_space; Z.div_mod_to_equations; lia] |]).
  all: constructor.
Qed.

(** X19. [parse_date_input] ignores the white space around the text;
    it returns nothing for a blank text and for a text that is no
    date, and otherwise a date of the library.  It reads the text
    [strftime] writes for a date whose year has four digits back to
    that date. *)
Theorem parse_date_input_spec (d : PyDate.date) :
  four_digit_year d ->
  Cli.parse_date_input (PyDate.strftime d) = Some d
  /\ (forall s, Cli.parse_date_input s = Cli.parse_date_input (PyStr.strip s))
  /\ (forall s, PyStr.strip s = "" -> Cli.parse_date_input s = None)
  /\ (forall s e, PyDate.strptime (PyStr.strip s) = Raise e ->
                  Cli.parse_date_input s = None)
  /\ (forall s d', Cli.parse_date_input s = Some d' ->
                   PyDate.date_ok d' /\ PyDate.strptime (PyStr.strip s) = Ok d').
Proof.
  intros H4. pose proof (four_digit_year_ok d H4) as Hd.
  unfold Cli.parse_date_input. split; [| split; [| split; [| split]]].
  - rewrite (strip_strftime d Hd), (strptime_strftime d H4).
    destruct (PyDate.strftime d) eqn:E; [| reflexivity].
    pose proof (strptime_strftime d H4) as H. rewrite E in H. discriminate.
  - intros s. now rewrite (strip_idem s).
  - intros s ->. reflexivity.
  - intros s e ->. now destruct (negb _).
  - intros s d'. destruct (PyStr.truthy (PyStr.strip s)); simpl; [| discriminate].
    destruct (PyDate.strptime (PyStr.strip s)) as [d0 |] eqn:E; [| discriminate].
    intros [= <-]. split; [exact (strptime_Ok _ _ E) | reflexivity].
Qed.

Lemma parse_date_input_spec_witness :
  four_digit_year 739252
  /\ Cli.parse_date_input (PyDate.strftime 739252) = Some 739252.
Proof.
  assert (H : four_digit_year 739252)
    by (unfold four_digit_year, PyDate.MAXORDINAL; lia).
  split; [exact H |]. exact (proj1 (parse_date_input_spec 739252 H)).
Defined.

Lemma input_non_empty_Got (stdin rest : list string) (v : string) :
  Cli.input_non_empty stdin = Cli.Got v rest ->
  PyStr.truthy v = true /\ trimmed v
  /\ exists skipped line,
       stdin = (skipped ++ line :: rest)%list /\ v = PyStr.strip line
       /\ Forall (fun l => PyStr.strip l = "") skipped.
Proof.
  induction stdin as [| line stdin IH]; simpl; [discriminate |].
  destruct (PyStr.truthy (PyStr.strip line)) eqn:E.
  - intros [= <- <-]. split; [exact E |]. split; [apply strip_idem |].
    exists [], line. repeat split. constructor.
  - intros H. destruct (IH H) as (Hv & Ht & skipped & l & -> & -> & Hs).
    split; [exact Hv |]. split; [exact Ht |].
    exists (line :: skipped), l. repeat split.
    constructor; [now apply strip_blank_or_nonblank | exact Hs].
Qed.

Lemma input_non_empty_no_crash (stdin : list string) (e : exn) :
  Cli.input_non_empty stdin <> Cli.Crash e.
Proof.
  induction stdin as [| line stdin IH]; simpl; [discriminate |].
  destruct (PyStr.truthy (PyStr.strip line)); [discriminate | exact IH].
Qed.

Lemma title_valid_priority (p : string) :
  p ∈ Task.VALID_PRIORITIES -> PyStr.title p = p.
Proof.
  unfold Task.VALID_PRIORITIES. intros H.
  repeat (apply elem_of_cons in H as [-> | H]; [reflexivity |]). inversion H.
Qed.

Lemma choose_priority_Got (stdin rest : list string) (p : string) :
  Cli.choose_priority stdin = Cli.Got p rest ->
  p ∈ Task.VALID_PRIORITIES
  /\ exists skipped line,
       stdin = (skipped ++ line :: rest)%list /\ p = PyStr.title (PyStr.strip line)
       /\ Forall (fun l => PyStr.title (PyStr.strip l) ∉ Task.VALID_PRIORITIES) skipped.
Proof.
  induction stdin as [| line stdin IH]; simpl; [discriminate |].
  destruct (decide (PyStr.title (PyStr.strip line) ∈ Task.VALID_PRIORITIES)) as [E | E].
  - intros [= <- <-]. split; [exact E |]. exists [], line. repeat split. constructor.
  - intros H. destruct (IH H) as (Hp & skipped & l & -> & -> & Hs).
    split; [exact Hp |]. exists (line :: skipped), l. repeat split.
    constructor; assumption.
Qed.

Lemma choose_priority_no_crash (stdin : list string) (e : exn) :
  Cli.choose_priority stdin <> Cli.Crash e.
Proof.
  induction stdin as [| line stdin IH]; simpl; [discriminate |].
  destruct (decide _); [discriminate | exact IH].
Qed.

Lemma input_date_Got (stdin rest : list string) (d : PyDate.date) :
  Cli.input_date stdin = Cli.Got d rest ->
  PyDate.date_ok d
  /\ exists skipped line,
       stdin = (skipped ++ line :: rest)%list
       /\ PyDate.strptime (PyStr.strip line) = Ok d
       /\ Forall (fun l => Cli.parse_date_input l = None) skipped.
Proof.
  induction stdin as [| line stdin IH]; simpl; [discriminate |].
  destruct (Cli.parse_date_input (PyStr.strip line)) as [d0 |] eqn:E.
  - intros [= <- <-].
    unfold Cli.parse_date_input in E. rewrite (strip_idem line) in E.
    destruct (PyStr.truthy (PyStr.strip line)); simpl in E; [| discriminate].
    destruct (PyDate.strptime (PyStr.strip line)) as [d1 |] eqn:E1; [| discriminate].
    injection E as <-. split; [exact (strptime_Ok _ _ E1) |].
    exists [], line. split; [reflexivity |]. split; [exact E1 | constructor].
  - intros H. destruct (IH H) as (Hd & skipped & l & -> & Hl & Hs).
    split; [exact Hd |]. exists (line :: skipped), l.
    split; [reflexivity |]. split; [exact Hl |].
    constructor; [| exact Hs].
    unfold Cli.parse_date_input in *. now rewrite (strip_idem line) in E.
Qed.

Lemma input_date_no_crash (stdin : list string) (e : exn) :
  Cli.input_date stdin <> Cli.Crash e.
Proof.
  induction stdin as [| line stdin IH]; simpl; [discriminate |].
  destruct (Cli.parse_date_input _); [discriminate | exact IH].
Qed.

(** X20. [input_non_empty] skips the blank lines and returns the
    first line that is not blank, stripped: a text that is not empty.
    It fails, with the end of the input, only when every line is
    blank. *)
Theorem input_non_empty_spec (stdin : list string) :
  match Cli.input_non_empty stdin with
  | Cli.Got v rest =>
      v <> "" /\ trimmed v
      /\ exists skipped line,
           stdin = (skipped ++ line :: rest)%list /\ v = PyStr.strip line
           /\ Forall (fun l => PyStr.strip l = "") skipped
  | Cli.Eof => Forall (fun l => PyStr.strip l = "") stdin
  | Cli.Crash _ => False
  end.
Proof.
  destruct (Cli.input_non_empty stdin) as [v rest | | e] eqn:E.
  - destruct (input_non_empty_Got stdin rest v E) as (Hv & Ht & Hex).
    split; [now destruct v |]. split; assumption.
  - induction stdin as [| line stdin IH]; [constructor |]. simpl in E.
    destruct (PyStr.truthy (PyStr.strip line)) eqn:El; [discriminate |].
    constructor; [now apply strip_blank_or_nonblank | now apply IH].
  - exact (input_non_empty_no_crash stdin e E).
Qed.

(** X21. [choose_priority] skips the lines that are no priority and
    returns the first one that is, stripped and in title case: one of
    Low, Medium and High, a text [add_task] accepts as it is.  It
    fails, with the end of the input, only when no line is a
    priority. *)
Theorem choose_priority_spec (stdin : list string) :
  match Cli.choose_priority stdin with
  | Cli.Got p rest =>
      p ∈ Task.VALID_PRIORITIES /\ PyStr.title p ∈ Task.VALID_PRIORITIES
      /\ exists skipped line,
           stdin = (skipped ++ line :: rest)%list /\ p = PyStr.title (PyStr.strip line)
           /\ Forall (fun l => PyStr.title (PyStr.strip l) ∉ Task.VALID_PRIORITIES)
                     skipped
  | Cli.Eof =>
      Forall (fun l => PyStr.title (PyStr.strip l) ∉ Task.VALID_PRIORITIES) stdin
  | Cli.Crash _ => False
  end.
Proof.
  destruct (Cli.choose_priority stdin) as [p rest | | e] eqn:E.
  - destruct (choose_priority_Got stdin rest p E) as (Hp & Hex).
    split; [exact Hp |]. split; [now rewrite title_valid_priority | exact Hex].
  - induction stdin as [| line stdin IH]; [constructor |]. simpl in E.
    destruct (decide _) as [| N]; [discriminate |].
    constructor; [exact N | now apply IH].
  - exact (choose_priority_no_crash stdin e E).
Qed.

(** X22. [input_date] skips the lines [parse_date_input] rejects and
    returns the date of the first line it accepts, a date of the
    library.  It fails, with the end of the input, only when no line
    is a date. *)
Theorem input_date_spec (stdin : list string) :
  match Cli.input_date stdin with
  | Cli.Got d rest =>
      PyDate.date_ok d
      /\ exists skipped line,
           stdin = (skipped ++ line :: rest)%list
           /\ PyDate.strptime (PyStr.strip line) = Ok d
           /\ Forall (fun l => Cli.parse_date_input l = None) skipped
  | Cli.Eof => Forall (fun l => Cli.parse_date_input l = None) stdin
  | Cli.Crash _ => False
  end.
Proof.
  destruct (Cli.input_date stdin) as [d rest | | e] eqn:E.
  - exact (input_date_Got stdin rest d E).
  - induction stdin as [| line stdin IH]; [constructor |]. simpl in E.
    destruct (Cli.parse_date_input (PyStr.strip line)) eqn:El; [discriminate |].
    constructor; [| now apply IH].
    unfold Cli.parse_date_input in *. now rewrite (strip_idem line) in El.
  - exact (input_date_no_crash stdin e E).
Qed.

(** X23. The branch "Add Task" of the menu never fails in
    [add_task].  It ends with the end of the input, nothing changed,
    exactly when the input ends before a title, a priority and a date
    are read.  Otherwise the task made of the three values read, with
    the counter as id and the status Pending, is appended; its title
    has a character that is not white space, its priority is valid and
    its due date is a date of the library; a store whose titles all
    have such a character keeps this property.  The file then holds
    the collection as saved, unless the path cannot be opened or an
    integer is not converted. *)
Theorem menu_add_task_spec (stdin : list string) (s s' : state)
    (r : Cli.outcome Task.t) :
  Cli.menu_add_task stdin s = (r, s') ->
  match r with
  | Cli.Got x rest =>
      (exists title stdin1 priority stdin2,
         Cli.input_non_empty stdin = Cli.Got title stdin1
         /\ Cli.choose_priority stdin1 = Cli.Got priority stdin2
         /\ Cli.input_date stdin2 = Cli.Got (Task.due_date x) rest
         /\ x = Task.mk (_next_id s) title (PStr priority) (Task.due_date x)
                  (PStr "Pending"))
      /\ task_list s' = (task_list s ++ [x])%list
      /\ _next_id s' = _next_id s + 1
      /\ persisted s s'
      /\ nonblank x
      /\ (exists p, p ∈ Task.VALID_PRIORITIES /\ Task.priority x = PStr p)
      /\ PyDate.date_ok (Task.due_date x)
      /\ (Forall nonblank (task_list s) -> Forall nonblank (task_list s'))
  | Cli.Eof =>
      s' = s
      /\ (Cli.input_non_empty stdin = Cli.Eof
          \/ exists title stdin1,
               Cli.input_non_empty stdin = Cli.Got title stdin1
               /\ (Cli.choose_priority stdin1 = Cli.Eof
                   \/ exists priority stdin2,
                        Cli.choose_priority stdin1 = Cli.Got priority stdin2
                        /\ Cli.input_date stdin2 = Cli.Eof))
  | Cli.Crash _ => False
  end.
Proof.
  unfold Cli.menu_add_task.
  destruct (Cli.input_non_empty stdin) as [title stdin1 | | e] eqn:E1;
    [| intros [= <- <-]; split; [reflexivity | now left]
     | destruct (input_non_empty_no_crash stdin e E1) ].
  destruct (Cli.choose_priority stdin1) as [priority stdin2 | | e] eqn:E2;
    [| intros [= <- <-]; split; [reflexivity | right; eauto]
     | destruct (choose_priority_no_crash stdin1 e E2) ].
  destruct (Cli.input_date stdin2) as [due stdin3 | | e] eqn:E3;
    [| intros [= <- <-]; split; [reflexivity | right; eauto 8]
     | destruct (input_date_no_crash stdin2 e E3) ].
  destruct (input_non_empty_Got _ _ _ E1) as (Hne & Htrim & _).
  destruct (choose_priority_Got _ _ _ E2) as (Hp & _).
  destruct (input_date_Got _ _ _ E3) as (Hd & _).
  assert (Hp' : PyStr.title priority ∈ Task.VALID_PRIORITIES)
    by now rewrite title_valid_priority.
  destruct (add_task_valid title priority due s Hp') as (s1 & E & Hl & Hn & Hf).
  rewrite E. intros [= <- <-].
  assert (Hx : Task.init (_next_id s) title (PStr (PyStr.title priority)) due
                 Task.DEFAULT_STATUS
               = Task.mk (_next_id s) title (PStr priority) due (PStr "Pending")).
  { unfold Task.init, Task.DEFAULT_STATUS.
    now rewrite (title_valid_priority priority Hp), Htrim. }
  rewrite Hx in *. simpl.
  assert (Hnb : nonblank (Task.mk (_next_id s) title (PStr priority) due (PStr "Pending"))).
  { unfold nonblank. simpl. rewrite Htrim. intros ->. discriminate. }
  split; [exists title, stdin1, priority, stdin2; auto |].
  split; [exact Hl |]. split; [exact Hn |].
  split; [exact (add_task_persisted _ _ _ _ _ _ E) |].
  split; [exact Hnb |].
  split; [exists priority; split; [exact Hp | reflexivity] |].
  split; [exact Hd |].
  intros Hall. rewrite Hl. apply Forall_app. split; [exact Hall |].
  constructor; [exact Hnb | constructor].
Qed.

Lemma menu_add_task_spec_witness :
  exists x rest s',
    Cli.menu_add_task ["  "; " Call Ann "; "urgent"; "high"; "tomorrow"; "2025-1-1"; "2"]
      one_task_store
    = (Cli.Got x rest, s')
    /\ x = Task.mk 2 "Call Ann" (PStr "High") 739252 (PStr "Pending")
    /\ rest = ["2"]
    /\ nonblank x.
Proof.
  eexists _, _, _.
  assert (E : Cli.menu_add_task
                ["  "; " Call Ann "; "urgent"; "high"; "tomorrow"; "2025-1-1"; "2"]
                one_task_store
              = (Cli.Got (Task.mk 2 "Call Ann" (PStr "High") 739252 (PStr "Pending")) ["2"],
                 snd (add_task "Call Ann" "High" 739252 one_task_store)))
    by (vm_compute; reflexivity).
  split; [exact E |]. split; [reflexivity |]. split; [reflexivity |].
  pose proof (menu_add_task_spec _ _ _ _ E) as H. simpl in H.
  exact (proj1 (proj2 (proj2 (proj2 (proj2 H))))).
Defined.

Lemma digit_val_nonneg (c : ascii) : PyStr.is_digit c = true -> 0 <= PyDate.digit_val c.
Proof.
  unfold PyStr.is_digit, PyDate.digit_val. intros H.
  apply andb_prop in H as [H _]. apply N.leb_le in H. lia.
Qed.

Lemma digit_not_sign (c : ascii) :
  PyStr.is_digit c = true -> Ascii.eqb c "-" = false /\ Ascii.eqb c "+" = false.
Proof. each_ascii c; intros H; try discriminate H; split; reflexivity. Qed.

Lemma digit_not_c_space (c : ascii) :
  PyStr.is_digit c = true -> PyInt.is_c_space c = false.
Proof. each_ascii c; intros H; try discriminate H; reflexivity. Qed.

Lemma is_digit_char_ascii (c : ascii) :
  (PyStr.code c < 128)%N -> Cli.is_digit_char c = true -> PyStr.is_digit c = true.
Proof.
  each_ascii c; intros H1 H2; try reflexivity; try discriminate H2;
    vm_compute in H1; discriminate H1.
Qed.

Lemma lstrip_ascii_text (s : string) : ascii_text s -> ascii_text (PyStr.lstrip s).
Proof.
  unfold ascii_text. induction s as [| c s IH]; simpl; intros H; [exact H |].
  destruct (PyStr.is_space c); [| exact H].
  apply IH. now apply Forall_cons in H as [_ H].
Qed.

Lemma rstrip_ascii_text (s : string) : ascii_text s -> ascii_text (PyStr.rstrip s).
Proof.
  unfold ascii_text. induction s as [| c s IH]; simpl; intros H; [exact H |].
  apply Forall_cons in H as [Hc H]. specialize (IH H).
  destruct (PyStr.rstrip s) as [| c' r].
  - destruct (PyStr.is_space c); simpl; [constructor |].
    constructor; [exact Hc | constructor].
  - simpl. constructor; [exact Hc | exact IH].
Qed.

Lemma strip_ascii_text (s : string) : ascii_text s -> ascii_text (PyStr.strip s).
Proof. intros H. apply rstrip_ascii_text, lstrip_ascii_text, H. Qed.

(** The digits of ASCII only: what [str.isdigit] says of an ASCII
    text. *)
Lemma all_digits_ascii (s : string) :
  ascii_text s -> Cli.all_digits s = true ->
  Forall (fun c => PyStr.is_digit c = true) (list_ascii_of_string s).
Proof.
  unfold ascii_text. induction s as [| c s IH]; simpl; intros Ha Hd; [constructor |].
  apply Forall_cons in Ha as [Hc Ha]. apply andb_prop in Hd as [Hd Hs].
  constructor; [now apply is_digit_char_ascii | now apply IH].
Qed.

Lemma digits_decimal (s : string) (acc : Z) (after_digit : bool) :
  Forall (fun c => PyStr.is_digit c = true) (list_ascii_of_string s) ->
  PyStr.truthy s = true \/ after_digit = true -> 0 <= acc ->
  exists n, PyInt.digits acc after_digit s = Some n /\ 0 <= n.
Proof.
  revert acc after_digit. induction s as [| c s IH]; intros acc b Hall Hne Hacc; simpl.
  - destruct Hne as [Hne | ->]; [discriminate | eauto].
  - simpl in Hall. apply Forall_cons in Hall as [Hc Hs]. rewrite Hc.
    apply IH; [exact Hs | now right |].
    pose proof (digit_val_nonneg c Hc). lia.
Qed.

Lemma count_digits_decimal (s : string) :
  Forall (fun c => PyStr.is_digit c = true) (list_ascii_of_string s) ->
  PyInt.count_digits s = Z.of_nat (String.length s).
Proof.
  induction s as [| c s IH]; simpl; [reflexivity |].
  intros H. apply Forall_cons in H as [-> Hs]. rewrite (IH Hs). lia.
Qed.

Lemma skip_leading_decimal (s : string) :
  Forall (fun c => PyStr.is_digit c = true) (list_ascii_of_string s) ->
  PyInt.skip_leading s = s.
Proof.
  destruct s as [| c s]; simpl; [reflexivity |].
  intros H. apply Forall_cons in H as [Hc _].
  now rewrite (digit_not_c_space c Hc).
Qed.

Lemma skip_trailing_decimal (s : string) :
  Forall (fun c => PyStr.is_digit c = true) (list_ascii_of_string s) ->
  PyInt.skip_trailing s = s.
Proof.
  induction s as [| c s IH]; simpl; [reflexivity |].
  intros H. apply Forall_cons in H as [Hc Hs]. rewrite (IH Hs).
  destruct s; [now rewrite (digit_not_c_space c Hc) | reflexivity].
Qed.

(** [int(s)] for an ASCII text that [str.isdigit] accepts. *)
Lemma int_of_digits (s : string) :
  ascii_text s -> Cli.isdigit s = true ->
  (exists n, PyInt.int (PStr s) = Ok n /\ 0 <= n
             /\ Z.of_nat (String.length s) <= PyInt.MAX_STR_DIGITS)
  \/ (PyInt.int (PStr s) = Raise ValueError
      /\ PyInt.MAX_STR_DIGITS < Z.of_nat (String.length s)).
Proof.
  unfold Cli.isdigit. intros Ha Hd. apply andb_prop in Hd as [Hne Hd].
  pose proof (all_digits_ascii s Ha Hd) as Hall.
  simpl. unfold PyInt.of_str.
  rewrite (skip_leading_decimal s Hall), (skip_trailing_decimal s Hall).
  destruct s as [| c s]; [discriminate |].
  assert (Hc : PyStr.is_digit c = true) by (simpl in Hall; now apply Forall_cons in Hall).
  destruct (digit_not_sign c Hc) as [-> ->].
  destruct (digits_decimal (String c s) 0 false Hall (or_introl Hne) ltac:(lia))
    as (n & -> & Hn).
  rewrite (count_digits_decimal _ Hall).
  destruct (Z.ltb_spec PyInt.MAX_STR_DIGITS (Z.of_nat (String.length (String c s)))).
  - right. split; [reflexivity | assumption].
  - left. exists n. repeat split; assumption.
Qed.

(** A line that [str.isdigit] accepts and [int] rejects: the
    superscript two. *)
Lemma input_int_superscript (rest : list string) :
  Cli.input_int (String (ascii_of_N 178) EmptyString :: rest) = Cli.Crash ValueError.
Proof. reflexivity. Qed.

(** X24. On input lines of ASCII characters, [input_int] skips the
    lines that are not made of digits and returns the number the first
    line of digits denotes, which is not negative.  It raises
    [ValueError], uncaught, when that line has more digits than [int]
    converts (4300); it fails with the end of the input when no line
    is made of digits. *)
Theorem input_int_spec (stdin : list string) :
  Forall ascii_text stdin ->
  match Cli.input_int stdin with
  | Cli.Got n rest =>
      0 <= n
      /\ exists skipped line,
           stdin = (skipped ++ line :: rest)%list
           /\ Cli.isdigit (PyStr.strip line) = true
           /\ PyInt.int (PStr (PyStr.strip line)) = Ok n
           /\ Forall (fun l => Cli.isdigit (PyStr.strip l) = false) skipped
  | Cli.Eof => Forall (fun l => Cli.isdigit (PyStr.strip l) = false) stdin
  | Cli.Crash e =>
      e = ValueError
      /\ exists line, line ∈ stdin /\ Cli.isdigit (PyStr.strip line) = true
                      /\ PyInt.MAX_STR_DIGITS
                         < Z.of_nat (String.length (PyStr.strip line))
  end.
Proof.
  induction stdin as [| line stdin IH]; simpl; intros Ha; [constructor |].
  apply Forall_cons in Ha as [Hline Ha]. specialize (IH Ha).
  destruct (Cli.isdigit (PyStr.strip line)) eqn:Ed.
  - destruct (int_of_digits (PyStr.strip line) (strip_ascii_text line Hline) Ed)
      as [(n & E & Hn & _) | [E Hlen]]; simpl in E; rewrite E.
    + split; [exact Hn |]. exists [], line.
      split; [reflexivity |]. split; [exact Ed |]. split; [exact E | constructor].
    + split; [reflexivity |]. exists line. split; [left | split; assumption].
  - destruct (Cli.input_int stdin) as [n rest | | e].
    + destruct IH as (Hn & skipped & l & -> & Hl & Hi & Hs).
      split; [exact Hn |]. exists (line :: skipped), l.
      split; [reflexivity |]. split; [exact Hl |]. split; [exact Hi |].
      constructor; assumption.
    + constructor; assumption.
    + destruct IH as (-> & l & Hl & Hd & Hlen).
      split; [reflexivity |]. exists l. split; [now right | split; assumption].
Qed.

Lemma input_int_spec_witness :
  Forall ascii_text ["two"; " 12 "; "7"]
  /\ Cli.input_int ["two"; " 12 "; "7"] = Cli.Got 12 ["7"]
  /\ 0 <= 12.
Proof.
  assert (Ha : Forall ascii_text ["two"; " 12 "; "7"]).
  { repeat constructor; vm_compute; reflexivity. }
  split; [exact Ha |]. split; [reflexivity |].
  exact (proj1 (input_int_spec ["two"; " 12 "; "7"] Ha)).
Defined.

(** ** The title column of the table *)

Lemma length_substring_0 (n : nat) (s : string) :
  String.length (String.substring 0 n s) = Nat.min n (String.length s).
Proof.
  revert s. induction n as [| n IH]; intros [| c s]; simpl; try reflexivity.
  now rewrite IH.
Qed.

Lemma length_string_append (a b : string) :
  String.length (String.append a b) = (String.length a + String.length b)%nat.
Proof. induction a as [| c a IH]; simpl; [reflexivity | now rewrite IH]. Qed.

(** X25. The title shown in a row of the table has at most 40
    characters: a title of at most 40 characters is shown as it is, a
    longer one as its first 37 characters and three dots, 40
    characters in all. *)
Theorem display_title_width (x : Task.t) :
  (String.length (Cli.display_title x) <= 40)%nat
  /\ ((String.length (Task.title x) <= 40)%nat -> Cli.display_title x = Task.title x)
  /\ ((40 < String.length (Task.title x))%nat ->
      Cli.display_title x = String.append (String.substring 0 37 (Task.title x)) "..."
      /\ String.length (Cli.display_title x) = 40%nat).
Proof.
  unfold Cli.display_title.
  destruct (Nat.ltb_spec 40 (String.length (Task.title x))) as [H | H].
  - rewrite length_string_append, length_substring_0.
    change (String.length "...") with 3%nat.
    split; [lia |]. split; [lia |]. intros _. split; [reflexivity | lia].
  - split; [exact H |]. split; [reflexivity | lia].
Qed.

(** ** Adding, and taking back what was added *)

Lemma find_in_app_other (l : list Task.t) (x : Task.t) (other : Z) :
  other <> Task.id x -> find_in (l ++ [x]) other = find_in l other.
Proof.
  intros Ho. induction l as [| y l IH]; simpl.
  - destruct (decide (Task.id x = other)); [congruence | reflexivity].
  - destruct (decide (Task.id y = other)); [reflexivity | exact IH].
Qed.

(** X26. [add_task] either raises [ValueError], when the priority in
    title case is not Low, Medium or High, and then changes nothing; or
    it returns the new task, whose id is the counter, whose title is
    the stripped title, whose priority is in title case and whose
    status is Pending.  The task is then the last of the collection,
    the counter is one more and the lookup of every other id is as
    before; the file holds the collection as saved, unless the path
    cannot be opened or an integer is not converted. *)
Theorem add_task_outcome (title priority : string) (due_date : PyDate.date) (s : state) :
  match add_task title priority due_date s with
  | (Ok x, s') =>
      PyStr.title priority ∈ Task.VALID_PRIORITIES
      /\ x = Task.mk (_next_id s) (PyStr.strip title) (PStr (PyStr.title priority))
               due_date (PStr "Pending")
      /\ task_list s' = (task_list s ++ [x])%list
      /\ _next_id s' = _next_id s + 1
      /\ persisted s s'
      /\ (forall other, other <> Task.id x ->
            find_task_by_id other s' = find_task_by_id other s)
  | (Raise e, s') =>
      e = ValueError /\ (PyStr.title priority ∉ Task.VALID_PRIORITIES) /\ s' = s
  end.
Proof.
  destruct (decide (PyStr.title priority ∈ Task.VALID_PRIORITIES)) as [Hp | Hp].
  - destruct (add_task_valid title priority due_date s Hp) as (s' & E & Hl & Hn & _).
    rewrite E. split; [exact Hp |]. split; [reflexivity |]. split; [exact Hl |].
    split; [exact Hn |]. split; [exact (add_task_persisted _ _ _ _ _ _ E) |].
    intros other Ho. unfold find_task_by_id. rewrite Hl. now apply find_in_app_other.
  - rewrite (add_task_invalid title priority due_date s Hp). auto.
Qed.

Lemma find_pos_app_fresh (l : list Task.t) (x : Task.t) :
  (forall y, y ∈ l -> Task.id y <> Task.id x) ->
  find_pos (l ++ [x]) (Task.id x) = Some (List.length l).
Proof.
  induction l as [| y l IH]; simpl; intros H.
  - destruct (decide (Task.id x = Task.id x)); congruence.
  - destruct (decide (Task.id y = Task.id x)) as [E | NE].
    + exfalso. apply (H y); [left | exact E].
    + rewrite IH; [reflexivity |]. intros z Hz. apply H. now right.
Qed.

(** X27. Deleting the task just added takes the addition back: in
    every state of a manager, [add_task] followed by [delete_task]
    with the id of the new task gives back the collection and the
    counter of before; the next task added therefore gets the id of
    the deleted one again. *)
Theorem add_then_delete (s : state) (title priority : string) (due_date : PyDate.date) :
  reachable s ->
  PyStr.title priority ∈ Task.VALID_PRIORITIES ->
  exists x s1 s2,
    add_task title priority due_date s = (Ok x, s1)
    /\ delete_task (Task.id x) s1 = (Ok true, s2)
    /\ task_list s2 = task_list s
    /\ _next_id s2 = _next_id s
    /\ forall title' priority' due_date' y s3,
         add_task title' priority' due_date' s2 = (Ok y, s3) -> Task.id y = Task.id x.
Proof.
  intros Hs Hp. destruct (reachable_invariants s Hs) as [Hr _].
  pose proof (recomputed_below _ _ Hr) as Hb.
  destruct (add_task_valid title priority due_date s Hp) as (s1 & E & Hl & Hn & _).
  set (x := Task.init (_next_id s) title (PStr (PyStr.title priority)) due_date
              Task.DEFAULT_STATUS) in *.
  assert (Hpos : find_pos (task_list s1) (Task.id x) = Some (List.length (task_list s))).
  { rewrite Hl. apply find_pos_app_fresh. intros y Hy. specialize (Hb y Hy).
    simpl. lia. }
  pose proof (delete_task_spec (Task.id x) s1) as Hd. rewrite Hpos in Hd.
  destruct Hd as (s2 & E2 & Hl2 & Hr2).
  assert (Hl2' : task_list s2 = task_list s).
  { rewrite Hl2, Hl, delete_middle. apply app_nil_r. }
  rewrite Hl2' in Hr2.
  pose proof (recomputed_unique _ _ _ Hr2 Hr) as Hn2.
  exists x, s1, s2. split; [exact E |]. split; [exact E2 |]. split; [exact Hl2' |].
  split; [exact Hn2 |].
  intros title' priority' due_date' y s3 E3.
  destruct (decide (PyStr.title priority' ∈ Task.VALID_PRIORITIES)) as [Hp' | Hp'].
  - destruct (add_task_valid title' priority' due_date' s2 Hp') as (s3' & E3' & _).
    rewrite E3' in E3. injection E3 as <- _. simpl. exact Hn2.
  - rewrite (add_task_invalid title' priority' due_date' s2 Hp') in E3. discriminate.
Qed.

Lemma add_then_delete_witness :
  reachable one_task_store /\ PyStr.title "low" ∈ Task.VALID_PRIORITIES
  /\ exists x s1 s2,
       add_task "Buy milk" "low" 739252 one_task_store = (Ok x, s1)
       /\ delete_task (Task.id x) s1 = (Ok true, s2)
       /\ task_list s2 = task_list one_task_store.
Proof.
  assert (Hp : PyStr.title "low" ∈ Task.VALID_PRIORITIES) by (vm_compute; left).
  split; [exact reachable_one_task_store |]. split; [exact Hp |].
  destruct (add_then_delete one_task_store "Buy milk" "low" 739252
              reachable_one_task_store Hp) as (x & s1 & s2 & E1 & E2 & Hl & _).
  exists x, s1, s2. auto.
Defined.
